(** * backend-rapport: the week-based temporal model and the resource services

    A shallow embedding of
      - [app/utils/datetime_utils.py]  (ISO-week parsing, formatting, ranges),
      - [app/api/v1/reports.py], [app/api/v1/messages.py], [app/api/v1/users.py]
        (the request handlers, over an explicit document store),
    together with the parts of the Python runtime they rely on
    ([str.split], [int], [float], [round], [datetime], [timedelta],
    [date.isocalendar]). *)

From Stdlib Require Import ZArith QArith String Ascii List Lia Bool.
From Stdlib Require Floats.
From stdpp Require Import base option list sorting gmap strings.

Close Scope Q_scope.
Local Open Scope string_scope.
Local Open Scope Z_scope.

(* ===================================================================== *)
(** * Part I. The Python runtime used by [datetime_utils.py]              *)
(* ===================================================================== *)

(** Python exceptions that the modelled code can raise. *)
Inductive pyexn : Type :=
  | ValueError
  | TypeError
  | OverflowError.

(** Result of a Python call: a value or a raised exception. *)
Inductive outcome (A : Type) : Type :=
  | Return (a : A)
  | Raise (e : pyexn).
Arguments Return {A} a.
Arguments Raise {A} e.

(** Sequencing: an exception raised by the first call skips the rest. *)
#[global] Instance outcome_bind : MBind outcome := fun A B f x =>
  match x with
  | Return a => f a
  | Raise e => Raise e
  end.
#[global] Instance outcome_ret : MRet outcome := fun A a => Return a.

(** ** [str] and [int] *)

Module PyStr.

(** A [str] is a sequence of code points.  It is held as the [string] of
    its UTF-8 encoding, the form in which the source files spell their
    literals and the requests carry their fields; what looks at single
    characters reads the code points first.  [need] is the number of
    continuation bytes still expected and [acc] the bits read so far.
    (A byte sequence that is not well formed encodes no [str]; the
    decoder is total all the same.) *)
Fixpoint decode (need : nat) (acc : N) (s : string) : list N :=
  match s with
  | EmptyString => []
  | String c s' =>
      let b := N_of_ascii c in
      match need with
      | S need' =>
          let acc := (acc * 64 + b mod 64)%N in
          match need' with
          | O => acc :: decode 0 0 s'
          | S _ => decode need' acc s'
          end
      | O =>
          if (b <? 128)%N then b :: decode 0 0 s'
          else if (b <? 224)%N then decode 1 (b mod 32) s'
          else if (b <? 240)%N then decode 2 (b mod 16) s'
          else decode 3 (b mod 8) s'
      end
  end.

Definition code_points (s : string) : list N := decode 0 0 s.

(** [len(s)]. *)
Definition len (s : string) : nat := length (code_points s).

(** [s.isascii()]. *)
Fixpoint isascii (s : string) : bool :=
  match s with
  | EmptyString => true
  | String c s' => (N_of_ascii c <? 128)%N && isascii s'
  end.

(** The code points of general category Nd (Unicode 14.0, the database of
    CPython 3.11) come in runs of ten, one per script, from the digit zero
    to the digit nine; these are the zeros.  They are the characters that
    [\d] matches in a [str] pattern and that [int] reads as digits. *)
Definition digit_zeros : list N :=
  [48; 1632; 1776; 1984; 2406; 2534; 2662; 2790; 2918; 3046; 3174; 3302;
   3430; 3558; 3664; 3792; 3872; 4160; 4240; 6112; 6160; 6470; 6608; 6784;
   6800; 6992; 7088; 7232; 7248; 42528; 43216; 43264; 43472; 43504; 43600;
   44016; 65296; 66720; 68912; 69734; 69872; 69942; 70096; 70384; 70736;
   70864; 71248; 71360; 71472; 71904; 72016; 72784; 73040; 73120; 92768;
   92864; 93008; 120782; 120792; 120802; 120812; 120822; 123200; 123632;
   125264; 130032]%N.

Definition digit_zero (c : N) : option N :=
  List.find (fun z => (z <=? c) && (c <? z + 10))%N digit_zeros.

Definition is_digit (c : N) : bool :=
  match digit_zero c with
  | Some _ => true
  | None => false
  end.

(** The decimal value of a digit, [-1] for any other character. *)
Definition digit_val (c : N) : Z :=
  match digit_zero c with
  | Some z => Z.of_N (c - z)
  | None => -1
  end.

(** The character that prints the digit [d]. *)
Definition digit_char (d : Z) : ascii := ascii_of_N (Z.to_N (48 + d)).

(** White space that [int] skips at both ends: the ASCII white space of
    the C locale and, beyond ASCII, the code points on which
    [str.isspace] holds. *)
Definition is_space (c : N) : bool :=
  (((9 <=? c) && (c <=? 13)) || (c =? 32) || (c =? 133) || (c =? 160)
   || (c =? 5760) || ((8192 <=? c) && (c <=? 8202)) || (c =? 8232)
   || (c =? 8233) || (c =? 8239) || (c =? 8287) || (c =? 12288))%N.

Fixpoint lstrip (s : list N) : list N :=
  match s with
  | [] => []
  | c :: s' => if is_space c then lstrip s' else s
  end.

Fixpoint rstrip (s : list N) : list N :=
  match s with
  | [] => []
  | c :: s' =>
      match rstrip s' with
      | [] => if is_space c then [] else [c]
      | r => c :: r
      end
  end.

Definition strip (s : list N) : list N := lstrip (rstrip s).

(** The digits of an [int] literal: a digit, then digits each optionally
    preceded by one underscore.  [seen] tells whether the previous
    character was a digit. *)
Fixpoint int_digits (s : list N) (acc : Z) (seen : bool) : option Z :=
  match s with
  | [] => if seen then Some acc else None
  | c :: s' =>
      if is_digit c then int_digits s' (10 * acc + digit_val c) true
      else if (c =? 95)%N then
             if seen then int_digits s' acc false else None
           else None
  end.

(** [int(s)] in base 10: surrounding white space is dropped, one sign is
    allowed; anything else raises [ValueError].  (The interpreter's cap on
    the number of digits, 4300 unless configured otherwise, is left
    out.) *)
Definition int (s : string) : outcome Z :=
  let s := strip (code_points s) in
  let '(negative, body) :=
    match s with
    | c :: body =>
        if (c =? 45)%N then (true, body)
        else if (c =? 43)%N then (false, body)
        else (false, s)
    | [] => (false, s)
    end in
  match int_digits body 0 false with
  | Some n => Return (if negative then - n else n)
  | None => Raise ValueError
  end.

(** Decimal digits of a natural number, most significant first; [fuel]
    bounds the number of further digits. *)
Fixpoint str_digits (fuel : nat) (n : Z) (acc : string) : string :=
  let acc' := String (digit_char (n mod 10)) acc in
  match fuel with
  | O => acc'
  | S f => if n <? 10 then acc' else str_digits f (n / 10) acc'
  end.

Definition str_nat (n : Z) : string :=
  str_digits (Z.to_nat (Z.log2 n)) n EmptyString.

(** [str(n)], which is also [format(n, "d")]. *)
Definition str (n : Z) : string :=
  if n <? 0 then String "-" (str_nat (- n)) else str_nat n.

(** Left padding with ['0'] up to [width] characters. *)
Definition zfill (width : nat) (s : string) : string :=
  String.concat "" (repeat "0" (width - String.length s)) ++ s.

(** [format(n, "02d")]: zero padding goes between the sign and the
    digits, and the sign counts in the width. *)
Definition format_02d (n : Z) : string :=
  if n <? 0 then String "-" (zfill 1 (str_nat (- n)))
  else zfill 2 (str_nat n).

(** [s.split("-W")]: the pieces between the non-overlapping occurrences
    of the separator, scanned from the left.  The two characters of the
    separator are ASCII, and in UTF-8 an ASCII byte is never part of the
    encoding of another character: the separator is found on the bytes. *)
Fixpoint split_dash_W (s : string) : list string :=
  let keep c rest :=
    match rest with
    | p :: ps => String c p :: ps
    | [] => [String c EmptyString]
    end in
  match s with
  | EmptyString => [EmptyString]
  | String c rest =>
      match rest with
      | String c' rest' =>
          if Ascii.eqb c "-" && Ascii.eqb c' "W"
          then EmptyString :: split_dash_W rest'
          else keep c (split_dash_W rest)
      | EmptyString => keep c (split_dash_W rest)
      end
  end.

(** [a, b = xs]: tuple unpacking of exactly two items. *)
Definition unpack2 {A} (xs : list A) : outcome (A * A) :=
  match xs with
  | [a; b] => Return (a, b)
  | _ => Raise ValueError
  end.

(** Lexicographic order of two sequences of code points. *)
Fixpoint le_code_points (a b : list N) : bool :=
  match a, b with
  | [], _ => true
  | _ :: _, [] => false
  | x :: a', y :: b' =>
      if (x <? y)%N then true
      else if (y <? x)%N then false
      else le_code_points a' b'
  end.

(** [a <= b] on [str]. *)
Definition le (a b : string) : bool :=
  le_code_points (code_points a) (code_points b).

End PyStr.

(** ** [float]

    A Python [float] and a BSON double are IEEE 754 binary64 numbers: the
    primitive floats, whose operations round to the nearest float, ties
    going to the even one. *)

Abbreviation float := PrimFloat.float (only parsing).

Module PyFloat.

Definition zero : float := PrimFloat.zero.

(** [float(z)]: the float nearest to an integer. *)
Definition of_Z (z : Z) : float :=
  FloatOps.SF2Prim
    (SpecFloat.binary_normalize FloatOps.prec FloatOps.emax z 0 false).

(** The float nearest to a fraction, which is what a decimal literal
    such as [4.5] or [0.1] denotes. *)
Definition of_Q (q : Q) : float :=
  let quotient (negative : bool) (n : positive) :=
    FloatOps.SF2Prim
      (SpecFloat.SFdiv FloatOps.prec FloatOps.emax
         (SpecFloat.S754_finite negative n 0)
         (SpecFloat.S754_finite false (Qden q) 0)) in
  match Qnum q with
  | Z0 => zero
  | Zpos n => quotient false n
  | Zneg n => quotient true n
  end.

(** [a // b] rounded to the nearest integer, a tie going to the even
    one, for a positive [b]. *)
Definition div_half_even (a b : Z) : Z :=
  let q := a / b in
  match 2 * (a mod b) ?= b with
  | Lt => q
  | Gt => q + 1
  | Eq => if Z.even q then q else q + 1
  end.

(** [round(x, 2)]: the exact value of [x] is rounded to the nearest
    multiple of 1/100, a tie going to the even multiple, and the result is
    the float nearest to that decimal; the sign is kept, also on zero,
    and infinities and NaN are returned as they are. *)
Definition round2 (x : float) : float :=
  match FloatOps.Prim2SF x with
  | SpecFloat.S754_finite s m e =>
      let hundredths :=
        if 0 <=? e then Z.pos m * 2 ^ e * 100
        else div_half_even (Z.pos m * 100) (2 ^ (- e)) in
      match hundredths with
      | Z.pos n =>
          FloatOps.SF2Prim
            (SpecFloat.SFdiv FloatOps.prec FloatOps.emax
               (SpecFloat.S754_finite s n 0)
               (SpecFloat.S754_finite false 100 0))
      | _ => FloatOps.SF2Prim (SpecFloat.S754_zero s)
      end
  | _ => x
  end.

End PyFloat.

(** ** [datetime]

    The date arithmetic follows the pure-Python implementation of the
    standard library ([Lib/_pydatetime.py]): proleptic Gregorian ordinals,
    [_ymd2ord], [_ord2ymd], [_isoweek1monday], [date.isocalendar] and
    [datetime.__add__].  Python's [//] and [%] round towards minus
    infinity, as [Z.div] and [Z.modulo] do for a positive divisor. *)

Module PyDateTime.

Definition MINYEAR : Z := 1.
Definition MAXYEAR : Z := 9999.
Definition MAXORDINAL : Z := 3652059.

Definition DAYS_IN_MONTH (month : Z) : Z :=
  match month with
  | 1 => 31 | 2 => 28 | 3 => 31 | 4 => 30 | 5 => 31 | 6 => 30
  | 7 => 31 | 8 => 31 | 9 => 30 | 10 => 31 | 11 => 30 | 12 => 31
  | _ => -1
  end.

Definition DAYS_BEFORE_MONTH (month : Z) : Z :=
  match month with
  | 1 => 0 | 2 => 31 | 3 => 59 | 4 => 90 | 5 => 120 | 6 => 151
  | 7 => 181 | 8 => 212 | 9 => 243 | 10 => 273 | 11 => 304 | 12 => 334
  | _ => -1
  end.

Definition is_leap (year : Z) : bool :=
  (year mod 4 =? 0) && (negb (year mod 100 =? 0) || (year mod 400 =? 0)).

Definition days_before_year (year : Z) : Z :=
  let y := year - 1 in y * 365 + y / 4 - y / 100 + y / 400.

Definition days_in_month (year month : Z) : Z :=
  if (month =? 2) && is_leap year then 29 else DAYS_IN_MONTH month.

Definition days_before_month (year month : Z) : Z :=
  DAYS_BEFORE_MONTH month + (if (month >? 2) && is_leap year then 1 else 0).

Definition ymd2ord (year month day : Z) : Z :=
  days_before_year year + days_before_month year month + day.

Definition DI400Y : Z := 146097.
Definition DI100Y : Z := 36524.
Definition DI4Y : Z := 1461.

(** Ordinal to (year, month, day), with 01-Jan-0001 as day 1. *)
Definition ord2ymd (n : Z) : Z * Z * Z :=
  let n := n - 1 in
  let n400 := n / DI400Y in
  let n := n mod DI400Y in
  let year := n400 * 400 + 1 in
  let n100 := n / DI100Y in
  let n := n mod DI100Y in
  let n4 := n / DI4Y in
  let n := n mod DI4Y in
  let n1 := n / 365 in
  let n := n mod 365 in
  let year := year + n100 * 100 + n4 * 4 + n1 in
  if (n1 =? 4) || (n100 =? 4) then (year - 1, 12, 31)
  else
    let leapyear := (n1 =? 3) && (negb (n4 =? 24) || (n100 =? 3)) in
    let month := Z.shiftr (n + 50) 5 in
    let preceding :=
      DAYS_BEFORE_MONTH month + (if (month >? 2) && leapyear then 1 else 0) in
    if preceding >? n then
      let month := month - 1 in
      let preceding :=
        preceding
        - (DAYS_IN_MONTH month + (if (month =? 2) && leapyear then 1 else 0)) in
      (year, month, n - preceding + 1)
    else (year, month, n - preceding + 1).

(** A naive [datetime] (no time zone, microsecond 0). *)
Record datetime : Type := mk_datetime {
  year : Z; month : Z; day : Z;
  hour : Z; minute : Z; second : Z
}.

(** A [timedelta], normalised to days and seconds of the day. *)
Record timedelta_t : Type := mk_timedelta { td_days : Z; td_seconds : Z }.

(** [timedelta(weeks=.., days=.., hours=.., minutes=.., seconds=..)]. *)
Definition timedelta (weeks days hours minutes seconds : Z)
  : outcome timedelta_t :=
  let total := ((weeks * 7 + days) * 24 + hours) * 3600
               + minutes * 60 + seconds in
  let d := total / 86400 in
  if Z.abs d >? 999999999 then Raise OverflowError
  else Return (mk_timedelta d (total mod 86400)).

(** [datetime(year, month, day)], midnight. *)
Definition new (y m d : Z) : outcome datetime :=
  if negb ((MINYEAR <=? y) && (y <=? MAXYEAR)) then Raise ValueError
  else if negb ((1 <=? m) && (m <=? 12)) then Raise ValueError
  else if negb ((1 <=? d) && (d <=? days_in_month y m)) then Raise ValueError
  else Return (mk_datetime y m d 0 0 0).

Definition toordinal (dt : datetime) : Z :=
  ymd2ord (year dt) (month dt) (day dt).

(** Monday is 0, Sunday is 6. *)
Definition weekday (dt : datetime) : Z := (toordinal dt + 6) mod 7.

(** [dt + delta]. *)
Definition add (dt : datetime) (delta : timedelta_t) : outcome datetime :=
  let secs := hour dt * 3600 + minute dt * 60 + second dt
              + td_seconds delta in
  let days := toordinal dt + td_days delta + secs / 86400 in
  let secs := secs mod 86400 in
  let h := secs / 3600 in
  let rem := secs mod 3600 in
  if (0 <? days) && (days <=? MAXORDINAL) then
    let '(y, m, d) := ord2ymd days in
    Return (mk_datetime y m d h (rem / 60) (rem mod 60))
  else Raise OverflowError.

(** Ordinal of the Monday that starts ISO week 1 of [year]. *)
Definition isoweek1monday (year : Z) : Z :=
  let THURSDAY := 3 in
  let firstday := ymd2ord year 1 1 in
  let firstweekday := (firstday + 6) mod 7 in
  let week1monday := firstday - firstweekday in
  if firstweekday >? THURSDAY then week1monday + 7 else week1monday.

(** [dt.isocalendar()]: ISO year, ISO week number, ISO weekday. *)
Definition isocalendar (dt : datetime) : Z * Z * Z :=
  let year := year dt in
  let week1monday := isoweek1monday year in
  let today := toordinal dt in
  let week := (today - week1monday) / 7 in
  let day := (today - week1monday) mod 7 in
  if week <? 0 then
    let year := year - 1 in
    let week1monday := isoweek1monday year in
    (year, (today - week1monday) / 7 + 1, (today - week1monday) mod 7 + 1)
  else if (week >=? 52) && (today >=? isoweek1monday (year + 1)) then
    (year + 1, 1, day + 1)
  else (year, week + 1, day + 1).

End PyDateTime.

(* ===================================================================== *)
(** * Part II. [app/utils/datetime_utils.py]                              *)
(* ===================================================================== *)

Import PyDateTime.

(** [iso_week_to_date_range] (lines 19-40): the pair (start, end) of the
    week. *)
Definition iso_week_to_date_range (week_iso : string)
  : outcome (datetime * datetime) :=
  '(year, week) ← PyStr.unpack2 (PyStr.split_dash_W week_iso);
  year ← PyStr.int year;
  week ← PyStr.int week;
  jan_1 ← PyDateTime.new year 1 1;
  let days_to_monday := (7 - weekday jan_1) mod 7 in
  let days_to_monday :=
    if weekday jan_1 >? 3 then days_to_monday + 7 else days_to_monday in
  d1 ← timedelta 0 days_to_monday 0 0 0;
  first_monday ← add jan_1 d1;
  d2 ← timedelta (week - 1) 0 0 0 0;
  week_start ← add first_monday d2;
  d3 ← timedelta 0 6 23 59 59;
  week_end ← add week_start d3;
  mret (week_start, week_end).

(** [date_to_iso_week] (lines 43-46). *)
Definition date_to_iso_week (date : datetime) : string :=
  let '(year, week, _) := isocalendar date in
  PyStr.str year ++ "-W" ++ PyStr.format_02d week.

(** [validate_iso_week_format] (lines 55-58):
    [re.match(r'^\d{4}-W\d{2}$', week_iso)].
    [\d] is any decimal digit of Unicode; [$] matches at the end of the
    string and also just before a newline that ends the string. *)
Definition validate_iso_week_format (week_iso : string) : bool :=
  match PyStr.code_points week_iso with
  | y1 :: y2 :: y3 :: y4 :: dash :: W :: w1 :: w2 :: rest =>
      PyStr.is_digit y1 && PyStr.is_digit y2 && PyStr.is_digit y3
      && PyStr.is_digit y4 && (dash =? 45)%N && (W =? 87)%N
      && PyStr.is_digit w1 && PyStr.is_digit w2
      && match rest with
         | [] => true
         | [nl] => (nl =? 10)%N
         | _ => false
         end
  | _ => false
  end.

(** The week that follows [current_week] in the loop of [get_week_range]. *)
Definition next_week (current_week : string) : outcome string :=
  '(year, week) ← PyStr.unpack2 (PyStr.split_dash_W current_week);
  year ← PyStr.int year;
  week ← PyStr.int week;
  if week =? 52 then mret (PyStr.str (year + 1) ++ "-W01")
  else mret (PyStr.str year ++ "-W" ++ PyStr.format_02d (week + 1)).

(** The [while current_week <= end_week] loop.  [fuel] bounds the number of
    times the loop condition is evaluated; [None] means that the bound was
    reached with the loop still running. *)
Fixpoint week_range_loop (fuel : nat) (current_week end_week : string)
    (weeks : list string) : option (outcome (list string)) :=
  match fuel with
  | O => None
  | S fuel' =>
      if PyStr.le current_week end_week then
        let weeks := (weeks ++ [current_week])%list in
        match next_week current_week with
        | Return current_week => week_range_loop fuel' current_week end_week weeks
        | Raise e => Some (Raise e)
        end
      else Some (Return weeks)
  end.

(** [get_week_range] (lines 61-82). *)
Definition get_week_range (fuel : nat) (start_week end_week : string)
  : option (outcome (list string)) :=
  if negb (validate_iso_week_format start_week)
     || negb (validate_iso_week_format end_week)
  then Some (Raise ValueError)
  else week_range_loop fuel start_week end_week [].

(** [date_to_iso_week(iso_week_to_date_range(w)[0])]. *)
Definition round_trip (w : string) : outcome string :=
  '(week_start, _) ← iso_week_to_date_range w;
  mret (date_to_iso_week week_start).


(* ===================================================================== *)
(** * Part III. The document store and the request handlers               *)
(* ===================================================================== *)

(** ** [bson.ObjectId] *)

(** An [ObjectId] is kept as the string that [str(oid)] returns: 24
    lower-case hexadecimal characters. *)
Abbreviation ObjectId := string (only parsing).

Module Bson.

Definition is_hex (c : ascii) : bool :=
  let n := N_of_ascii c in
  (((48 <=? n) && (n <=? 57)) || ((97 <=? n) && (n <=? 102))
   || ((65 <=? n) && (n <=? 70)))%N.

Definition lower (c : ascii) : ascii :=
  let n := N_of_ascii c in
  if ((65 <=? n) && (n <=? 90))%N then ascii_of_N (n + 32) else c.

Fixpoint all_hex (s : string) : bool :=
  match s with
  | EmptyString => true
  | String c s' => is_hex c && all_hex s'
  end.

(** [ObjectId.is_valid(s)] for a [str]: 24 hexadecimal characters. *)
Definition is_valid (s : string) : bool :=
  (String.length s =? 24)%nat && all_hex s.

Fixpoint lower_str (s : string) : string :=
  match s with
  | EmptyString => EmptyString
  | String c s' => String (lower c) (lower_str s')
  end.

(** [ObjectId(s)], used by the handlers only after [is_valid]. *)
Definition of_str (s : string) : ObjectId := lower_str s.

End Bson.

(** ** Documents *)

(** [TaskItem] ([models/report.py]). *)
Record TaskItem : Type := mk_TaskItem {
  task_title : string;
  task_hours : float;
  task_notes : option string;
  task_project : option string
}.

Record ReportSection : Type := mk_ReportSection {
  sec_title : string;
  sec_description : string
}.

(** The fields that only a "simple" report has. *)
Record SimpleFields : Type := mk_SimpleFields {
  s_title : string;
  s_description : option string;
  s_category : string;
  s_sections : list ReportSection;
  s_created_by : string
}.

(** A document of the [reports] collection.  Both kinds of report live in
    it; a field that a document may lack is an [option] ([None]: the key is
    absent).  [difficulties] and [remarks] may be present with value
    [None], hence the nested option. *)
Record Report : Type := mk_Report {
  r_user_id : ObjectId;
  r_week_iso : option string;
  r_tasks : option (list TaskItem);
  r_difficulties : option (option string);
  r_remarks : option (option string);
  r_total_hours : option float;
  r_status : string;
  r_created_at : Z;
  r_updated_at : Z;
  r_simple : option SimpleFields
}.

Record User : Type := mk_User {
  u_email : string;
  u_name : string;
  u_role : string;
  u_status : string;
  u_is_active : option bool;
  u_hashed_password : string;
  u_created_at : Z;
  u_updated_at : Z
}.

Record Comment : Type := mk_Comment {
  c_content : string;
  c_report_id : ObjectId;
  c_admin_id : ObjectId;
  c_created_at : Z;
  c_updated_at : Z
}.

Record Message : Type := mk_Message {
  m_content : string;
  m_subject : option string;
  m_sender_id : ObjectId;
  m_receiver_id : ObjectId;
  m_read_status : bool;
  m_read_at : option Z;
  m_created_at : Z
}.

(** The database: each collection maps [_id] to the rest of the document. *)
Record Database : Type := mk_Database {
  users : gmap ObjectId User;
  reports : gmap ObjectId Report;
  comments : gmap ObjectId Comment;
  messages : gmap ObjectId Message
}.

(** ** Requests and responses *)

Record HTTPException : Type := mk_HTTPException {
  status_code : Z;
  detail : string
}.

Definition HTTP_400_BAD_REQUEST : Z := 400.
Definition HTTP_403_FORBIDDEN : Z := 403.
Definition HTTP_404_NOT_FOUND : Z := 404.
Definition HTTP_422_UNPROCESSABLE_ENTITY : Z := 422.
Definition HTTP_500_INTERNAL_SERVER_ERROR : Z := 500.

Inductive response (A : Type) : Type :=
  | Ok (a : A)
  | Err (e : HTTPException).
Arguments Ok {A} a.
Arguments Err {A} e.

(** A handler runs against the database and leaves a database behind,
    also when it raises: nothing is rolled back. *)
Definition M (A : Type) : Type := Database -> Database * response A.

#[global] Instance M_ret : MRet M := fun A a db => (db, Ok a).
#[global] Instance M_bind : MBind M := fun A B f m db =>
  match m db with
  | (db', Ok a) => f a db'
  | (db', Err e) => (db', Err e)
  end.

Definition raise {A} (status : Z) (msg : string) : M A :=
  fun db => (db, Err (mk_HTTPException status msg)).

Definition get_db : M Database := fun db => (db, Ok db).

Definition set_users (f : gmap ObjectId User -> gmap ObjectId User) : M unit :=
  fun db => (mk_Database (f (users db)) (reports db) (comments db) (messages db),
             Ok tt).
Definition set_reports (f : gmap ObjectId Report -> gmap ObjectId Report)
  : M unit :=
  fun db => (mk_Database (users db) (f (reports db)) (comments db) (messages db),
             Ok tt).
Definition set_comments (f : gmap ObjectId Comment -> gmap ObjectId Comment)
  : M unit :=
  fun db => (mk_Database (users db) (reports db) (f (comments db)) (messages db),
             Ok tt).
Definition set_messages (f : gmap ObjectId Message -> gmap ObjectId Message)
  : M unit :=
  fun db => (mk_Database (users db) (reports db) (comments db) (f (messages db)),
             Ok tt).

(** ** Collection operations *)

Section Collection.
Context {A : Type}.

(** [find_one(filter)] for a filter that does not fix [_id]: some matching
    document, if there is one. *)
Definition find_one (P : ObjectId * A -> Prop) `{!forall x, Decision (P x)}
    (c : gmap ObjectId A) : option (ObjectId * A) :=
  head (map_to_list (filter P c)).

(** [find(filter).to_list(None)]. *)
Definition find (P : ObjectId * A -> Prop) `{!forall x, Decision (P x)}
    (c : gmap ObjectId A) : list (ObjectId * A) :=
  map_to_list (filter P c).

(** [delete_many(filter)]. *)
Definition delete_many (P : ObjectId * A -> Prop) `{!forall x, Decision (P x)}
    (c : gmap ObjectId A) : gmap ObjectId A :=
  filter (fun x => ~ P x) c.

(** [count_documents(filter)]. *)
Definition count_documents (P : ObjectId * A -> Prop)
    `{!forall x, Decision (P x)} (c : gmap ObjectId A) : nat :=
  size (filter P c).

(** [insert_one(doc)]: the [_id] index refuses a key already in use. *)
Definition insert_one (oid : ObjectId) (doc : A) (c : gmap ObjectId A)
  : option (gmap ObjectId A) :=
  match c !! oid with
  | Some _ => None
  | None => Some (<[oid := doc]> c)
  end.

(** [insert_many(docs)], ordered: documents go in one by one, and the
    first refusal stops the operation, the earlier ones staying in.  The
    boolean tells whether all went in.  An empty list is refused. *)
Fixpoint insert_each (docs : list (ObjectId * A)) (c : gmap ObjectId A)
  : gmap ObjectId A * bool :=
  match docs with
  | [] => (c, true)
  | (oid, doc) :: docs' =>
      match insert_one oid doc c with
      | Some c' => insert_each docs' c'
      | None => (c, false)
      end
  end.

Definition insert_many (docs : list (ObjectId * A)) (c : gmap ObjectId A)
  : gmap ObjectId A * bool :=
  match docs with
  | [] => (c, false)
  | _ => insert_each docs c
  end.

End Collection.

(** ** [app/middleware/auth.py] *)

Record TokenData : Type := mk_TokenData {
  td_user_id : string;
  td_email : string;
  td_role : string
}.

(** A document as the handlers hold it: its [_id] and its other fields. *)
Definition current_user_t : Type := ObjectId * User.

(** [get_current_user_from_db].  A token subject that is no [ObjectId]
    makes [ObjectId(...)] raise outside any handler: a plain 500. *)
Definition get_current_user_from_db (current_user : TokenData)
  : M current_user_t :=
  if negb (Bson.is_valid (td_user_id current_user)) then
    raise HTTP_500_INTERNAL_SERVER_ERROR "Internal Server Error"
  else
    db ← get_db;
    match users db !! Bson.of_str (td_user_id current_user) with
    | Some user => mret (Bson.of_str (td_user_id current_user), user)
    | None => raise HTTP_404_NOT_FOUND "Utilisateur non trouvé"
    end.

Definition require_admin (token : TokenData) : M current_user_t :=
  current_user ← get_current_user_from_db token;
  if negb (String.eqb (u_role current_user.2) "admin") then
    raise HTTP_403_FORBIDDEN "Droits administrateur requis"
  else mret current_user.

Definition require_employee (token : TokenData) : M current_user_t :=
  current_user ← get_current_user_from_db token;
  if negb (String.eqb (u_role current_user.2) "employee") then
    raise HTTP_403_FORBIDDEN "Droits employé requis"
  else mret current_user.

Definition require_active_user (token : TokenData) : M current_user_t :=
  current_user ← get_current_user_from_db token;
  let is_active :=
    match u_is_active current_user.2 with
    | Some b => b
    | None => String.eqb (u_status current_user.2) "active"
    end in
  if negb is_active then
    raise HTTP_403_FORBIDDEN "Compte utilisateur inactif"
  else mret current_user.

(** ** [app/models/report.py] *)

Definition len_between (lo hi : nat) (s : string) : bool :=
  (lo <=? PyStr.len s)%nat && (PyStr.len s <=? hi)%nat.

Definition opt_len_max (hi : nat) (s : option string) : bool :=
  match s with
  | Some s => (PyStr.len s <=? hi)%nat
  | None => true
  end.

Definition TaskItem_valid (t : TaskItem) : bool :=
  len_between 1 200 (task_title t)
  && PrimFloat.leb PyFloat.zero (task_hours t)
  && opt_len_max 500 (task_notes t) && opt_len_max 100 (task_project t).

(** The constraints of [ReportBase], which [ReportCreate], [ReportInDB]
    and [ReportResponse] inherit. *)
Definition ReportBase_valid (week_iso : string) (tasks : list TaskItem)
    (difficulties remarks : option string) : bool :=
  validate_iso_week_format week_iso
  && negb (Nat.eqb (length tasks) 0) && forallb TaskItem_valid tasks
  && opt_len_max 1000 difficulties && opt_len_max 1000 remarks.

Record ReportCreate : Type := mk_ReportCreate {
  rc_week_iso : string;
  rc_tasks : list TaskItem;
  rc_difficulties : option string;
  rc_remarks : option string
}.

Record ReportUpdate : Type := mk_ReportUpdate {
  ru_tasks : option (list TaskItem);
  ru_difficulties : option string;
  ru_remarks : option string
}.

Definition ReportUpdate_valid (u : ReportUpdate) : bool :=
  match ru_tasks u with
  | Some tasks => negb (Nat.eqb (length tasks) 0) && forallb TaskItem_valid tasks
  | None => true
  end
  && opt_len_max 1000 (ru_difficulties u) && opt_len_max 1000 (ru_remarks u).

Record ReportResponse : Type := mk_ReportResponse {
  rr_id : string;
  rr_user_id : string;
  rr_user_name : option string;
  rr_week_iso : string;
  rr_tasks : list TaskItem;
  rr_difficulties : option string;
  rr_remarks : option string;
  rr_total_hours : float;
  rr_status : string;
  rr_created_at : Z;
  rr_updated_at : Z
}.

Record WeeklyStats : Type := mk_WeeklyStats {
  ws_week_iso : string;
  ws_total_reports : Z;
  ws_total_hours : float;
  ws_employees_reported : Z;
  ws_average_hours_per_employee : float
}.

(** [sum(task.hours for task in tasks)]: the hours are added to 0 one
    after the other, from left to right, each addition rounding (the
    [sum] of CPython 3.11). *)
Definition sum_hours (tasks : list TaskItem) : float :=
  fold_left (fun acc task => PrimFloat.add acc (task_hours task)) tasks
    PyFloat.zero.

(** [ReportResponse(_id=str(report["_id"]), ..., week_iso=report["week_iso"],
    ...)]: [None] when a key is missing ([KeyError]) or the model rejects
    the values ([ValidationError]). *)
Definition ReportResponse_of (oid : ObjectId) (report : Report)
    (user_name : string) : option ReportResponse :=
  week_iso ← r_week_iso report;
  tasks ← r_tasks report;
  difficulties ← r_difficulties report;
  remarks ← r_remarks report;
  total_hours ← r_total_hours report;
  if ReportBase_valid week_iso tasks difficulties remarks then
    Some (mk_ReportResponse oid (r_user_id report) (Some user_name) week_iso
            tasks difficulties remarks total_hours (r_status report)
            (r_created_at report) (r_updated_at report))
  else None.

(** A field of type [PyObjectId] ([models/user.py], lines 7-16).  The
    class hands its validator over through [__get_validators__]; pydantic 2
    calls a validator obtained that way with two arguments, the value and
    the validation context, and [validate(cls, v)] takes one: the call
    raises [TypeError], whatever the value. *)
Definition PyObjectId_field (v : ObjectId) : outcome ObjectId :=
  Raise TypeError.

(** [ReportInDB(user_id=..., week_iso=..., tasks=..., difficulties=...,
    remarks=...)] ([models/report.py], lines 53-65); the fields of
    [ReportBase] come from a request that has passed the same checks.
    [total_hours], [status] and the two dates take their defaults. *)
Definition ReportInDB (user_id : ObjectId) (week_iso : string)
    (tasks : list TaskItem) (difficulties remarks : option string) (now : Z)
  : outcome Report :=
  user_id ← PyObjectId_field user_id;
  mret (mk_Report user_id (Some week_iso) (Some tasks) (Some difficulties)
          (Some remarks) (Some PyFloat.zero) "submitted" now now None).

(** [ReportInDB.calculate_total_hours] (lines 67-69). *)
Definition calculate_total_hours (report : Report) : Report :=
  mk_Report (r_user_id report) (r_week_iso report) (r_tasks report)
    (r_difficulties report) (r_remarks report)
    (Some (sum_hours (default [] (r_tasks report))))
    (r_status report) (r_created_at report) (r_updated_at report)
    (r_simple report).

(** ** [app/api/v1/reports.py] *)

(** [create_report] (lines 188-263).  [now] is what [datetime.utcnow()] returns and
    [new_id] the [ObjectId] that [ReportInDB] generates.  An exception
    other than [HTTPException] ends in the handler's [except Exception]. *)
Definition create_report (report_data : ReportCreate) (token : TokenData)
    (now : Z) (new_id : ObjectId) : M ReportResponse :=
  current_user ← require_active_user token;
  if negb (ReportBase_valid (rc_week_iso report_data) (rc_tasks report_data)
             (rc_difficulties report_data) (rc_remarks report_data)) then
    raise HTTP_422_UNPROCESSABLE_ENTITY "Unprocessable Entity"
  else if negb (String.eqb (u_role current_user.2) "employee") then
    raise HTTP_403_FORBIDDEN "Seuls les employés peuvent créer des rapports"
  else
    db ← get_db;
    let existing_report :=
      find_one (fun d => r_user_id d.2 = current_user.1
                         /\ r_week_iso d.2 = Some (rc_week_iso report_data))
        (reports db) in
    match existing_report with
    | Some _ =>
        raise HTTP_400_BAD_REQUEST
          ("Un rapport existe déjà pour la semaine " ++ rc_week_iso report_data)
    | None =>
        match ReportInDB current_user.1 (rc_week_iso report_data)
                (rc_tasks report_data) (rc_difficulties report_data)
                (rc_remarks report_data) now with
        | Raise _ =>
            raise HTTP_500_INTERNAL_SERVER_ERROR
              "Erreur lors de la création du rapport"
        | Return report_in_db =>
            let report_in_db := calculate_total_hours report_in_db in
            match insert_one new_id report_in_db (reports db) with
            | None =>
                raise HTTP_500_INTERNAL_SERVER_ERROR
                  "Erreur lors de la création du rapport"
            | Some reports' =>
                set_reports (fun _ => reports');;
                db ← get_db;
                match reports db !! new_id
                      ≫= (fun r => ReportResponse_of new_id r
                                     (u_name current_user.2))
                with
                | Some resp => mret resp
                | None =>
                    raise HTTP_500_INTERNAL_SERVER_ERROR
                      "Erreur lors de la création du rapport"
                end
            end
        end
    end.

(** [get_report] (lines 368-436). *)
Definition get_report (report_id : string) (token : TokenData)
  : M ReportResponse :=
  current_user ← get_current_user_from_db token;
  if negb (Bson.is_valid report_id) then
    raise HTTP_400_BAD_REQUEST "ID rapport invalide"
  else
    db ← get_db;
    match reports db !! Bson.of_str report_id with
    | None => raise HTTP_404_NOT_FOUND "Rapport non trouvé"
    | Some report =>
        let user_name :=
          match users db !! r_user_id report with
          | Some user_info => u_name user_info
          | None => "Utilisateur inconnu"
          end in
        if String.eqb (u_role current_user.2) "employee"
           && negb (String.eqb (r_user_id report) current_user.1) then
          raise HTTP_403_FORBIDDEN "Accès non autorisé à ce rapport"
        else
          match ReportResponse_of (Bson.of_str report_id) report user_name with
          | Some resp => mret resp
          | None =>
              raise HTTP_500_INTERNAL_SERVER_ERROR
                "Erreur lors de la récupération du rapport"
          end
    end.

(** The [$set] of [update_report] (lines 469-481). *)
Definition apply_report_update (report_update : ReportUpdate) (now : Z)
    (r : Report) : Report :=
  mk_Report (r_user_id r) (r_week_iso r)
    (match ru_tasks report_update with
     | Some tasks => Some tasks
     | None => r_tasks r
     end)
    (match ru_difficulties report_update with
     | Some d => Some (Some d)
     | None => r_difficulties r
     end)
    (match ru_remarks report_update with
     | Some d => Some (Some d)
     | None => r_remarks r
     end)
    (match ru_tasks report_update with
     | Some tasks => Some (sum_hours tasks)
     | None => r_total_hours r
     end)
    (r_status r) (r_created_at r) now (r_simple r).

(** [update_report] (lines 439-515). *)
Definition update_report (report_id : string) (report_update : ReportUpdate)
    (token : TokenData) (now : Z) : M ReportResponse :=
  current_user ← require_employee token;
  if negb (ReportUpdate_valid report_update) then
    raise HTTP_422_UNPROCESSABLE_ENTITY "Unprocessable Entity"
  else if negb (Bson.is_valid report_id) then
    raise HTTP_400_BAD_REQUEST "ID rapport invalide"
  else
    db ← get_db;
    let existing_report :=
      match reports db !! Bson.of_str report_id with
      | Some r =>
          if String.eqb (r_user_id r) current_user.1 then Some r else None
      | None => None
      end in
    match existing_report with
    | None => raise HTTP_404_NOT_FOUND "Rapport non trouvé ou accès non autorisé"
    | Some _ =>
        set_reports (alter (apply_report_update report_update now)
                       (Bson.of_str report_id));;
        db ← get_db;
        match reports db !! Bson.of_str report_id
              ≫= (fun r => ReportResponse_of (Bson.of_str report_id) r
                             (u_name current_user.2))
        with
        | Some resp => mret resp
        | None =>
            raise HTTP_500_INTERNAL_SERVER_ERROR
              "Erreur lors de la mise à jour du rapport"
        end
    end.

(** ** The aggregation pipeline of [get_weekly_stats] *)

Section Aggregation.

(** The [$sum] accumulator of the database server over doubles, applied to
    the values of a bucket in the order in which the documents reach it.
    The server is not part of the repository: how it adds is left open. *)
Variable server_sum : list float -> float.

(** The accumulators of one [$group] bucket. *)
Record Group : Type := mk_Group {
  g_total_reports : Z;
  g_hours : list float;
  g_employees : gset ObjectId
}.

Definition empty_group : Group := mk_Group 0 [] ∅.

(** One more document in a bucket: [$sum: 1], [$sum: "$total_hours"] (a
    missing field counts for nothing) and [$addToSet: "$user_id"]. *)
Definition group_add (r : Report) (g : Group) : Group :=
  mk_Group (g_total_reports g + 1)
    (g_hours g ++ option_list (r_total_hours r))
    ({[r_user_id r]} ∪ g_employees g).

(** [$group] with [_id: "$week_iso"]; documents without the field share
    the bucket [None]. *)
Definition group_stage (docs : list (ObjectId * Report))
  : gmap (option string) Group :=
  foldl (fun acc d =>
           let k := r_week_iso d.2 in
           <[k := group_add d.2 (default empty_group (acc !! k))]> acc)
        ∅ docs.

(** A document after [$project]. *)
Record StatDoc : Type := mk_StatDoc {
  sd_week_iso : option string;
  sd_total_reports : Z;
  sd_total_hours : float;
  sd_employees_reported : Z;
  sd_average_hours_per_employee : float
}.

(** [$project]: [$size] is an integer, [$divide] the division of doubles,
    and the [else] branch of [$cond] the constant 0. *)
Definition project_stage (kg : option string * Group) : StatDoc :=
  let size_employees := Z.of_nat (size (g_employees kg.2)) in
  let total_hours := server_sum (g_hours kg.2) in
  mk_StatDoc kg.1 (g_total_reports kg.2) total_hours size_employees
    (if size_employees >? 0
     then PrimFloat.div total_hours (PyFloat.of_Z size_employees)
     else PyFloat.zero).

(** Order of the [week_iso] keys in a sort: null before any string, strings
    by code points. *)
Definition week_key_le (a b : option string) : bool :=
  match a, b with
  | None, _ => true
  | Some _, None => false
  | Some a, Some b => PyStr.le a b
  end.

(** [$sort: {week_iso: -1}]. *)
Definition sort_stage (docs : list StatDoc) : list StatDoc :=
  merge_sort (fun x y => Is_true (week_key_le (sd_week_iso y) (sd_week_iso x)))
    docs.

(** A query parameter counts when it is present and not empty. *)
Definition truthy (s : option string) : option string :=
  match s with
  | Some (String c s') => Some (String c s')
  | _ => None
  end.

(** [WeeklyStats(week_iso=stat["week_iso"], ...)]; [week_iso] must be a
    string. *)
Definition WeeklyStats_of (stat : StatDoc) : option WeeklyStats :=
  week_iso ← sd_week_iso stat;
  Some (mk_WeeklyStats week_iso (sd_total_reports stat) (sd_total_hours stat)
          (sd_employees_reported stat)
          (PyFloat.round2 (sd_average_hours_per_employee stat))).

(** The aggregation pipeline of [get_weekly_stats] over the documents
    that pass [$match]. *)
Definition weekly_pipeline (matches : Report -> bool)
    (c : gmap ObjectId Report) : list StatDoc :=
  sort_stage
    (project_stage
       <$> map_to_list
             (group_stage (find (fun d => Is_true (matches d.2)) c))).

(** The [week_iso] conditions that [get_weekly_stats] builds from its
    query parameters, as a test on documents; a condition on [week_iso]
    only matches documents that have the field. *)
Definition week_filters (start_week end_week : option string)
  : response (Report -> bool) :=
  match truthy start_week, truthy end_week with
  | Some s, Some e =>
      if negb (validate_iso_week_format s) || negb (validate_iso_week_format e)
      then Err (mk_HTTPException HTTP_400_BAD_REQUEST "Format de semaine invalide")
      else Ok (fun r : Report =>
                 match r_week_iso r with
                 | Some w => PyStr.le s w && PyStr.le w e
                 | None => false
                 end)
  | Some s, None =>
      if negb (validate_iso_week_format s)
      then Err (mk_HTTPException HTTP_400_BAD_REQUEST "Format de semaine invalide")
      else Ok (fun r : Report =>
                 match r_week_iso r with
                 | Some w => PyStr.le s w
                 | None => false
                 end)
  | None, _ => Ok (fun _ : Report => true)
  end.

(** [get_weekly_stats] ([reports.py], lines 566-642). *)
Definition get_weekly_stats (start_week end_week : option string)
    (token : TokenData) : M (list WeeklyStats) :=
  current_user ← require_admin token;
  filters ← (fun db => (db, week_filters start_week end_week));
  db ← get_db;
  let stats := weekly_pipeline filters (reports db) in
  match mapM WeeklyStats_of stats with
  | Some weekly_stats => mret weekly_stats
  | None =>
      raise HTTP_500_INTERNAL_SERVER_ERROR
        "Erreur lors de la récupération des statistiques"
  end.

End Aggregation.

(** ** [app/models/message.py] and [app/api/v1/messages.py] *)

Record MessageBroadcast : Type := mk_MessageBroadcast {
  mb_content : string;
  mb_subject : option string;
  mb_receiver_ids : list string
}.

Definition MessageBroadcast_valid (m : MessageBroadcast) : bool :=
  len_between 1 2000 (mb_content m) && opt_len_max 200 (mb_subject m)
  && negb (Nat.eqb (length (mb_receiver_ids m)) 0).

Record MessageResponse : Type := mk_MessageResponse {
  mr_id : string;
  mr_sender_id : string;
  mr_sender_name : option string;
  mr_receiver_id : string;
  mr_receiver_name : option string;
  mr_content : string;
  mr_subject : option string;
  mr_read_status : bool;
  mr_read_at : option Z;
  mr_created_at : Z
}.

(** The first receiver id that is not a valid [ObjectId], if any. *)
Definition first_invalid_id (ids : list string) : option string :=
  List.find (fun s => negb (Bson.is_valid s)) ids.

Definition is_active_employee (d : ObjectId * User) : Prop :=
  u_role d.2 = "employee" /\ u_status d.2 = "active".

(** [MessageInDB(sender_id=..., receiver_id=..., subject=...,
    content=...)] ([models/message.py], lines 24-36); [read_status],
    [read_at] and [created_at] take their defaults. *)
Definition MessageInDB (sender_id receiver_id : ObjectId)
    (subject : option string) (content : string) (now : Z) : outcome Message :=
  sender_id ← PyObjectId_field sender_id;
  receiver_id ← PyObjectId_field receiver_id;
  mret (mk_Message content subject sender_id receiver_id false None now).

(** [broadcast_message] (lines 99-187).  [new_id i] is the [ObjectId] generated for the
    [i]-th [MessageInDB].  An exception other than [HTTPException] ends in
    the handler's [except Exception]. *)
Definition broadcast_message (message_data : MessageBroadcast)
    (token : TokenData) (now : Z) (new_id : nat -> ObjectId)
  : M (list MessageResponse) :=
  current_user ← require_admin token;
  if negb (MessageBroadcast_valid message_data) then
    raise HTTP_422_UNPROCESSABLE_ENTITY "Unprocessable Entity"
  else
    match first_invalid_id (mb_receiver_ids message_data) with
    | Some receiver_id =>
        raise HTTP_400_BAD_REQUEST ("ID destinataire invalide: " ++ receiver_id)
    | None =>
        let receiver_object_ids := Bson.of_str <$> mb_receiver_ids message_data in
        db ← get_db;
        let receivers :=
          find (fun d => d.1 ∈ receiver_object_ids /\ is_active_employee d)
            (users db) in
        if negb (Nat.eqb (length receivers)
                   (length (mb_receiver_ids message_data))) then
          raise HTTP_400_BAD_REQUEST
            "Certains destinataires sont invalides ou inactifs"
        else
          let messages_to_insert :=
            mapM (fun ir : nat * (ObjectId * User) =>
                    message_in_db ← MessageInDB current_user.1 ir.2.1
                                      (mb_subject message_data)
                                      (mb_content message_data) now;
                    mret (new_id ir.1, message_in_db))
              (imap pair receivers) in
          match messages_to_insert with
          | Raise _ =>
              raise HTTP_500_INTERNAL_SERVER_ERROR
                "Erreur lors de l'envoi du message groupé"
          | Return messages_to_insert =>
              let '(messages', inserted) :=
                insert_many messages_to_insert (messages db) in
              set_messages (fun _ => messages');;
              if negb inserted then
                raise HTTP_500_INTERNAL_SERVER_ERROR
                  "Erreur lors de l'envoi du message groupé"
              else
                db ← get_db;
                let created_messages :=
                  find (fun d => d.1 ∈ messages_to_insert.*1) (messages db) in
                let message_responses :=
                  mapM (fun message : ObjectId * Message =>
                          receiver ← list_to_map (M := gmap ObjectId User)
                                       receivers
                                     !! m_receiver_id message.2;
                          Some (mk_MessageResponse message.1
                                  (m_sender_id message.2)
                                  (Some (u_name current_user.2))
                                  (m_receiver_id message.2)
                                  (Some (u_name receiver))
                                  (m_content message.2) (m_subject message.2)
                                  (m_read_status message.2)
                                  (m_read_at message.2)
                                  (m_created_at message.2)))
                    created_messages in
                match message_responses with
                | Some message_responses => mret message_responses
                | None =>
                    raise HTTP_500_INTERNAL_SERVER_ERROR
                      "Erreur lors de l'envoi du message groupé"
                end
          end
    end.

(** The [$set] that marks a message as read. *)
Definition mark_read (now : Z) (m : Message) : Message :=
  mk_Message (m_content m) (m_subject m) (m_sender_id m) (m_receiver_id m)
    true (Some now) (m_created_at m).

(** [get_message] (lines 259-353).  [now] and [now'] are the two readings of the clock,
    for the stored document and for the response. *)
Definition get_message (message_id : string) (token : TokenData)
    (now now' : Z) : M MessageResponse :=
  current_user ← get_current_user_from_db token;
  if negb (Bson.is_valid message_id) then
    raise HTTP_400_BAD_REQUEST "ID message invalide"
  else
    db ← get_db;
    match messages db !! Bson.of_str message_id with
    | None => raise HTTP_404_NOT_FOUND "Message non trouvé"
    | Some message =>
        let name_of oid :=
          match users db !! oid with
          | Some info => u_name info
          | None => "Utilisateur inconnu"
          end in
        let user_is_sender := String.eqb (m_sender_id message) current_user.1 in
        let user_is_receiver :=
          String.eqb (m_receiver_id message) current_user.1 in
        if negb user_is_sender && negb user_is_receiver then
          raise HTTP_403_FORBIDDEN "Accès non autorisé à ce message"
        else
          let respond read_status read_at :=
            mk_MessageResponse (Bson.of_str message_id) (m_sender_id message)
              (Some (name_of (m_sender_id message))) (m_receiver_id message)
              (Some (name_of (m_receiver_id message)))
              (m_content message) (m_subject message) read_status read_at
              (m_created_at message) in
          if user_is_receiver && negb (m_read_status message) then
            set_messages (alter (mark_read now) (Bson.of_str message_id));;
            mret (respond true (Some now'))
          else mret (respond (m_read_status message) (m_read_at message))
    end.

(** [mark_message_as_read] (lines 356-406). *)
Definition mark_message_as_read (message_id : string) (token : TokenData)
    (now : Z) : M string :=
  current_user ← require_employee token;
  if negb (Bson.is_valid message_id) then
    raise HTTP_400_BAD_REQUEST "ID message invalide"
  else
    db ← get_db;
    let existing_message :=
      match messages db !! Bson.of_str message_id with
      | Some m =>
          if String.eqb (m_receiver_id m) current_user.1 then Some m else None
      | None => None
      end in
    match existing_message with
    | None => raise HTTP_404_NOT_FOUND "Message non trouvé ou accès non autorisé"
    | Some _ =>
        set_messages (alter (mark_read now) (Bson.of_str message_id));;
        mret "Message marqué comme lu"
    end.

(** ** [app/api/v1/users.py] *)

(** [delete_user] (lines 239-294). *)
Definition delete_user (user_id : string) (token : TokenData) : M string :=
  current_user ← require_admin token;
  if negb (Bson.is_valid user_id) then
    raise HTTP_400_BAD_REQUEST "ID utilisateur invalide"
  else
    db ← get_db;
    match users db !! Bson.of_str user_id with
    | None => raise HTTP_404_NOT_FOUND "Utilisateur non trouvé"
    | Some user =>
        if String.eqb (Bson.of_str user_id) current_user.1 then
          raise HTTP_400_BAD_REQUEST "Impossible de supprimer votre propre compte"
        else
          set_reports
            (delete_many (fun d => r_user_id d.2 = Bson.of_str user_id));;
          set_comments
            (delete_many (fun d => c_admin_id d.2 = Bson.of_str user_id));;
          set_messages
            (delete_many (fun d => m_sender_id d.2 = Bson.of_str user_id
                                   \/ m_receiver_id d.2 = Bson.of_str user_id));;
          set_users (delete (Bson.of_str user_id));;
          mret "Utilisateur supprimé avec succès"
    end.

(* ===================================================================== *)
(** * Part IV. Auxiliary definitions used in the statements               *)
(* ===================================================================== *)

(** The bytes of a string, which are its code points when it is ASCII. *)
Fixpoint byte_codes (s : string) : list N :=
  match s with
  | EmptyString => []
  | String c s' => N_of_ascii c :: byte_codes s'
  end.

(** The ASCII digits and their values. *)
Definition ascii_digit (c : ascii) : bool :=
  let n := N_of_ascii c in ((48 <=? n) && (n <=? 57))%N.

Definition ascii_digit_val (c : ascii) : Z := Z.of_N (N_of_ascii c) - 48.

(** Strings made of ASCII digits only, and the number they denote when
    read after the digits already accumulated in [acc]. *)
Fixpoint all_digits (s : string) : bool :=
  match s with
  | EmptyString => true
  | String c s' => ascii_digit c && all_digits s'
  end.

Fixpoint digits_val (s : string) (acc : Z) : Z :=
  match s with
  | EmptyString => acc
  | String c s' => digits_val s' (10 * acc + ascii_digit_val c)
  end.

(** The f-string [f"{year}-W{week:02d}"] of [date_to_iso_week] and of
    [get_week_range]. *)
Definition week_string (year week : Z) : string :=
  PyStr.str year ++ "-W" ++ PyStr.format_02d week.

(** The year and week numbers that the code reads off a week string. *)
Definition week_fields (week_iso : string) : outcome (Z * Z) :=
  '(year, week) ← PyStr.unpack2 (PyStr.split_dash_W week_iso);
  year ← PyStr.int year;
  week ← PyStr.int week;
  mret (year, week).

(** Weekday (Monday = 0) of the first of January. *)
Definition jan1_weekday (year : Z) : Z := (ymd2ord year 1 1 + 6) mod 7.

(** The month and day that [ord2ymd] computes from the day [n] of the year
    (0-based) and the leap flag. *)
Definition month_day (n : Z) (leapyear : bool) : Z * Z :=
  let month := Z.shiftr (n + 50) 5 in
  let preceding :=
    DAYS_BEFORE_MONTH month + (if (month >? 2) && leapyear then 1 else 0) in
  if preceding >? n then
    let month := month - 1 in
    let preceding :=
      preceding
      - (DAYS_IN_MONTH month + (if (month =? 2) && leapyear then 1 else 0)) in
    (month, n - preceding + 1)
  else (month, n - preceding + 1).

Definition month_day_ok (leapyear : bool) (i : nat) : bool :=
  let n := Z.of_nat i in
  let '(m, d) := month_day n leapyear in
  (1 <=? m) && (m <=? 12) && (1 <=? d)
  && (DAYS_BEFORE_MONTH m + (if (m >? 2) && leapyear then 1 else 0) + d =? n + 1).

(** What [iso_week_to_date_range] does once the year and week numbers are
    read. *)
Definition week_span (year week : Z) : outcome (datetime * datetime) :=
  jan_1 ← PyDateTime.new year 1 1;
  let days_to_monday := (7 - weekday jan_1) mod 7 in
  let days_to_monday :=
    if weekday jan_1 >? 3 then days_to_monday + 7 else days_to_monday in
  d1 ← timedelta 0 days_to_monday 0 0 0;
  first_monday ← add jan_1 d1;
  d2 ← timedelta (week - 1) 0 0 0 0;
  week_start ← add first_monday d2;
  d3 ← timedelta 0 6 23 59 59;
  week_end ← add week_start d3;
  mret (week_start, week_end).

(** The sequence of [n] week identifiers that starts at week [week] of
    [year], where week 52 is followed by week 1 of the next year and any
    other week by the next week of the same year. *)
Fixpoint week_seq (n : nat) (year week : Z) : list string :=
  match n with
  | O => []
  | S n' =>
      week_string year week
      :: (if week =? 52 then week_seq n' (year + 1) 1
          else week_seq n' year (week + 1))
  end.

(** Number of weeks from (ys, ks) to (ye, ke) inclusive, at 52 per year. *)
Definition week_count (ys ks ye ke : Z) : nat :=
  Z.to_nat (52 * (ye - ys) + (ke - ks) + 1).

(** The token belongs to the user [cu] of the database. *)
Definition authenticated (token : TokenData) (db : Database)
    (cu : current_user_t) : Prop :=
  Bson.is_valid (td_user_id token) = true /\
  cu.1 = Bson.of_str (td_user_id token) /\
  users db !! cu.1 = Some cu.2.

(** [require_active_user] lets the user through. *)
Definition is_active (u : User) : bool :=
  match u_is_active u with
  | Some b => b
  | None => String.eqb (u_status u) "active"
  end.

(** Sample identifiers and documents for the examples. *)
Definition oid_admin : ObjectId := "aaaaaaaaaaaaaaaaaaaaaaa1".
Definition oid_admin2 : ObjectId := "aaaaaaaaaaaaaaaaaaaaaaa2".
Definition oid_emp1 : ObjectId := "eeeeeeeeeeeeeeeeeeeeeee1".
Definition oid_emp2 : ObjectId := "eeeeeeeeeeeeeeeeeeeeeee2".
Definition oid_emp3 : ObjectId := "eeeeeeeeeeeeeeeeeeeeeee3".
Definition oid_rep1 : ObjectId := "0000000000000000000000a1".
Definition oid_rep2 : ObjectId := "0000000000000000000000a2".
Definition oid_rep3 : ObjectId := "0000000000000000000000a3".
Definition oid_msg1 : ObjectId := "0000000000000000000000b1".
Definition oid_msg2 : ObjectId := "0000000000000000000000b2".
Definition oid_com1 : ObjectId := "0000000000000000000000c1".

Definition sample_user (name role status : string) : User :=
  mk_User (name ++ "@example.org") name role status None "hash" 0 0.

Definition sample_users : gmap ObjectId User :=
  <[oid_admin := sample_user "Awa" "admin" "active"]>
    (<[oid_admin2 := sample_user "Binta" "admin" "active"]>
       (<[oid_emp1 := sample_user "Issa" "employee" "active"]>
          (<[oid_emp2 := sample_user "Moussa" "employee" "active"]>
             (<[oid_emp3 := sample_user "Salif" "employee" "inactive"]> ∅)))).

Definition token_of (oid : ObjectId) : TokenData := mk_TokenData oid "" "".

(** A task of so many hours, given as a fraction. *)
Definition sample_task (hours : Q) : TaskItem :=
  mk_TaskItem "task" (PyFloat.of_Q hours) None None.

Definition sample_report (owner : ObjectId) (week : string) (hours : list Q)
  : Report :=
  mk_Report owner (Some week) (Some (sample_task <$> hours)) (Some None)
    (Some None) (Some (sum_hours (sample_task <$> hours))) "submitted" 0 0 None.

Definition sample_message (receiver : ObjectId) : Message :=
  mk_Message "bonjour" None oid_admin receiver false None 0.

(** A small database: two admins, three employees (one inactive), two
    reports, one comment and one message. *)
Definition sample_db : Database :=
  mk_Database sample_users
    (<[oid_rep1 := sample_report oid_emp1 "2024-W01" [3; 9 # 2]%Q]>
       (<[oid_rep2 := sample_report oid_emp2 "2024-W01" [5 # 2]%Q]> ∅))
    (<[oid_com1 := mk_Comment "bien" oid_rep1 oid_admin 0 0]> ∅)
    (<[oid_msg1 := sample_message oid_emp1]> ∅).

(** A report whose [total_hours] is the sum of the hours of its tasks. *)
Definition report_consistent (r : Report) : Prop :=
  forall tasks, r_tasks r = Some tasks -> r_total_hours r = Some (sum_hours tasks).

Definition store_consistent (db : Database) : Prop :=
  map_Forall (fun _ r => report_consistent r) (reports db).

(** The reports of one user for one week. *)
Definition is_report_of (owner : ObjectId) (week_iso : string)
    (d : ObjectId * Report) : Prop :=
  r_user_id d.2 = owner /\ r_week_iso d.2 = Some week_iso.

(** A receiver id resolves when it is a valid id of an active employee. *)
Definition resolves (db : Database) (receiver_id : string) : Prop :=
  Bson.is_valid receiver_id = true /\
  exists u, users db !! Bson.of_str receiver_id = Some u /\
            is_active_employee (Bson.of_str receiver_id, u).

(** Identifiers for the messages of the sample broadcast. *)
Definition sample_new_id (i : nat) : ObjectId :=
  match i with
  | O => oid_msg2
  | S _ => "0000000000000000000000b3"
  end.

(** The reports that pass the [$match] stage and belong to week [w]. *)
Definition week_docs (matches : Report -> bool) (c : gmap ObjectId Report)
    (w : option string) : list (ObjectId * Report) :=
  filter (fun d => r_week_iso d.2 = w)
    (find (fun d => Is_true (matches d.2)) c).

(** The [total_hours] values of a list of reports, and their owners. *)
Definition hours_of (docs : list (ObjectId * Report)) : list float :=
  docs ≫= (fun d => option_list (r_total_hours d.2)).

(** Addition from left to right, starting from 0: one way to sum. *)
Definition sum_left (hours : list float) : float :=
  fold_left PrimFloat.add hours PyFloat.zero.

Definition owners_of (docs : list (ObjectId * Report)) : gset ObjectId :=
  list_to_set ((fun d => r_user_id d.2) <$> docs).

(** Three employees, 3 + 3 + 4 hours in the same week. *)
Definition stats_db : Database :=
  mk_Database sample_users
    (<[oid_rep1 := sample_report oid_emp1 "2024-W01" [3]%Q]>
       (<[oid_rep2 := sample_report oid_emp2 "2024-W01" [3]%Q]>
          (<[oid_rep3 := sample_report oid_emp3 "2024-W01" [4]%Q]> ∅)))
    ∅ ∅.

(** The sample database after the receiver has read the message at
    time 100. *)
Definition sample_read_db : Database :=
  mk_Database (users sample_db) (reports sample_db) (comments sample_db)
    (<[oid_msg1 := mark_read 100 (sample_message oid_emp1)]> ∅).

(* ===================================================================== *)
(** * Part V. Facts about the Python string functions                     *)
(* ===================================================================== *)

Section PyStrFacts.
Import PyStr.

Lemma ascii_digit_range c :
  ascii_digit c = true -> (48 <= N_of_ascii c <= 57)%N.
Proof.
  unfold ascii_digit. intros H. apply andb_true_iff in H as [H1 H2].
  apply N.leb_le in H1. apply N.leb_le in H2. lia.
Qed.

Lemma digit_val_range c : ascii_digit c = true -> 0 <= ascii_digit_val c <= 9.
Proof. intros H%ascii_digit_range. unfold ascii_digit_val. lia. Qed.

Lemma digit_char_val c :
  ascii_digit c = true -> digit_char (ascii_digit_val c) = c.
Proof.
  intros H%ascii_digit_range. unfold digit_char, ascii_digit_val.
  replace (Z.to_N (48 + (Z.of_N (N_of_ascii c) - 48))) with (N_of_ascii c) by lia.
  apply ascii_N_embedding.
Qed.

Lemma digit_cases (d : Z) :
  0 <= d <= 9 ->
  d = 0 \/ d = 1 \/ d = 2 \/ d = 3 \/ d = 4 \/ d = 5 \/ d = 6 \/ d = 7
  \/ d = 8 \/ d = 9.
Proof. lia. Qed.

Lemma digit_char_is_digit d : 0 <= d <= 9 -> ascii_digit (digit_char d) = true.
Proof.
  intros H%digit_cases.
  repeat (destruct H as [-> | H]; [reflexivity |]). subst. reflexivity.
Qed.

Lemma digit_val_char d : 0 <= d <= 9 -> ascii_digit_val (digit_char d) = d.
Proof.
  intros H%digit_cases.
  repeat (destruct H as [-> | H]; [reflexivity |]). subst. reflexivity.
Qed.

Lemma N_of_digit_char d :
  0 <= d <= 9 -> N_of_ascii (digit_char d) = Z.to_N (48 + d).
Proof.
  intros H%digit_cases.
  repeat (destruct H as [-> | H]; [reflexivity |]). subst. reflexivity.
Qed.

(** ** ASCII strings *)

(** Among the bytes, the digits of [is_digit] are the ASCII digits. *)
Lemma is_digit_byte c : is_digit (N_of_ascii c) = ascii_digit c.
Proof. destruct c as [[] [] [] [] [] [] [] []]; vm_compute; reflexivity. Qed.

Lemma digit_val_byte c :
  ascii_digit c = true -> digit_val (N_of_ascii c) = ascii_digit_val c.
Proof.
  destruct c as [[] [] [] [] [] [] [] []]; vm_compute; congruence.
Qed.

Lemma ascii_digit_below_128 c : ascii_digit c = true -> (N_of_ascii c <? 128)%N = true.
Proof. intros H%ascii_digit_range. apply N.ltb_lt. lia. Qed.

Lemma code_points_cons c s :
  (N_of_ascii c <? 128)%N = true ->
  code_points (String c s) = N_of_ascii c :: code_points s.
Proof. intros H. unfold code_points. cbn [decode]. now rewrite H. Qed.

(** An ASCII string has its bytes for code points. *)
Lemma code_points_isascii s : isascii s = true -> code_points s = byte_codes s.
Proof.
  induction s as [| c s IH]; [reflexivity |].
  cbn [isascii byte_codes]. intros [Hc Hs]%andb_true_iff.
  now rewrite code_points_cons, IH.
Qed.

Lemma len_isascii s : isascii s = true -> len s = String.length s.
Proof.
  intros H. unfold len. rewrite code_points_isascii by assumption.
  induction s as [| c s IH]; [reflexivity |].
  cbn [isascii] in H. apply andb_true_iff in H as [_ H].
  cbn [byte_codes length String.length]. now rewrite IH.
Qed.

Lemma isascii_app s t : isascii (s ++ t) = isascii s && isascii t.
Proof.
  induction s as [| c s IH]; [reflexivity |].
  change (String c s ++ t) with (String c (s ++ t)).
  cbn [isascii]. now rewrite IH, andb_assoc.
Qed.

Lemma all_digits_isascii s : all_digits s = true -> isascii s = true.
Proof.
  induction s as [| c s IH]; [reflexivity |].
  cbn [all_digits isascii]. intros [Hc Hs]%andb_true_iff.
  now rewrite ascii_digit_below_128, IH.
Qed.

Lemma code_points_all_digits s :
  all_digits s = true -> code_points s = byte_codes s.
Proof. intros H. now apply code_points_isascii, all_digits_isascii. Qed.

(** ** Reading numbers *)

Lemma is_digit_not_space c :
  ascii_digit c = true -> is_space (N_of_ascii c) = false.
Proof.
  destruct c as [[] [] [] [] [] [] [] []]; vm_compute; congruence.
Qed.

Lemma ascii_digit_neq c (n : N) :
  ascii_digit c = true -> (n < 48 \/ 57 < n)%N -> (N_of_ascii c =? n)%N = false.
Proof. intros H%ascii_digit_range Hn. apply N.eqb_neq. lia. Qed.

Lemma is_digit_neq c (x : ascii) :
  ascii_digit c = true -> ascii_digit x = false -> Ascii.eqb c x = false.
Proof.
  intros Hc Hx. destruct (Ascii.eqb_spec c x) as [-> |]; congruence.
Qed.

Lemma lstrip_digit c s :
  ascii_digit c = true -> lstrip (N_of_ascii c :: s) = N_of_ascii c :: s.
Proof. intros H. simpl. now rewrite is_digit_not_space. Qed.

Lemma rstrip_all_digits s :
  all_digits s = true -> rstrip (byte_codes s) = byte_codes s.
Proof.
  induction s as [| c s IH]; simpl; [reflexivity |].
  intros [Hc Hs]%andb_true_iff. rewrite IH by assumption.
  destruct s; [| reflexivity]. simpl. now rewrite is_digit_not_space.
Qed.

Lemma int_digits_all_digits s acc seen :
  all_digits s = true ->
  int_digits (byte_codes s) acc seen
  = match s with
    | EmptyString => if seen then Some acc else None
    | String _ _ => Some (digits_val s acc)
    end.
Proof.
  revert acc seen. induction s as [| c s IH]; intros acc seen; [reflexivity |].
  simpl. intros [Hc Hs]%andb_true_iff.
  rewrite is_digit_byte, Hc, digit_val_byte, IH by assumption.
  destruct s; reflexivity.
Qed.

(** [int] on a non-empty string of digits is its decimal value. *)
Lemma int_all_digits c s :
  all_digits (String c s) = true ->
  int (String c s) = Return (digits_val (String c s) 0).
Proof.
  intros H. unfold int, strip.
  rewrite code_points_all_digits, rstrip_all_digits by assumption.
  pose proof H as [Hc Hs]%andb_true_iff.
  cbn [byte_codes]. rewrite lstrip_digit by assumption.
  rewrite !(ascii_digit_neq c) by (assumption || lia).
  change (N_of_ascii c :: byte_codes s) with (byte_codes (String c s)).
  now rewrite int_digits_all_digits.
Qed.

Lemma all_digits_app s t :
  all_digits (s ++ t) = all_digits s && all_digits t.
Proof.
  induction s as [| c s IH]; simpl; [reflexivity |].
  now rewrite IH, andb_assoc.
Qed.

(** A separator-free piece is kept whole by [split]. *)
Lemma split_all_digits s : all_digits s = true -> split_dash_W s = [s].
Proof.
  induction s as [| c s IH]; [reflexivity |].
  intros [Hc Hs]%andb_true_iff. cbn [split_dash_W].
  rewrite (is_digit_neq c "-") by (assumption || reflexivity).
  rewrite IH by assumption. now destruct s.
Qed.

Lemma split_digits_dash_W s t :
  all_digits s = true -> all_digits t = true ->
  split_dash_W (s ++ "-W" ++ t) = [s; t].
Proof.
  intros Hs Ht. induction s as [| c s IH].
  - change ("" ++ "-W" ++ t) with (String "-" (String "W" t)).
    cbn. now rewrite split_all_digits.
  - apply andb_true_iff in Hs as [Hc Hs]. specialize (IH Hs).
    change (String c s ++ "-W" ++ t) with (String c (s ++ "-W" ++ t)).
    cbn [split_dash_W]. rewrite (is_digit_neq c "-") by (assumption || reflexivity).
    rewrite IH. now destruct (s ++ "-W" ++ t).
Qed.

(** ** Printing numbers *)

Lemma mod10_digit n : 0 <= n mod 10 <= 9.
Proof. pose proof (Z.mod_pos_bound n 10). lia. Qed.

Lemma all_digits_str_digits f n acc :
  all_digits acc = true -> all_digits (str_digits f n acc) = true.
Proof.
  revert n acc. induction f as [| f IH]; intros n acc Hacc; simpl.
  - now rewrite digit_char_is_digit by apply mod10_digit.
  - destruct (n <? 10).
    + simpl. now rewrite digit_char_is_digit by apply mod10_digit.
    + apply IH. simpl. now rewrite digit_char_is_digit by apply mod10_digit.
Qed.

Lemma str_digits_cons f n acc : exists c s, str_digits f n acc = String c s.
Proof.
  revert n acc. induction f as [| f IH]; intros n acc; simpl; [eauto |].
  destruct (n <? 10); eauto.
Qed.

(** Reading back what [str_digits] printed gives the number, provided the
    fuel covers its digits. *)
Lemma digits_val_str_digits f n acc :
  0 <= n < 10 ^ Z.of_nat (S f) ->
  digits_val (str_digits f n acc) 0 = digits_val acc n.
Proof.
  revert n acc. induction f as [| f IH]; intros n acc Hn.
  - change (10 ^ Z.of_nat 1) with 10 in Hn. simpl.
    rewrite digit_val_char by apply mod10_digit.
    rewrite Z.mod_small by lia. reflexivity.
  - simpl str_digits. destruct (Z.ltb_spec n 10) as [Hlt | Hge].
    + simpl. rewrite digit_val_char by apply mod10_digit.
      rewrite Z.mod_small by lia. reflexivity.
    + rewrite IH.
      * simpl. rewrite digit_val_char by apply mod10_digit.
        f_equal. pose proof (Z.div_mod n 10). lia.
      * replace (Z.of_nat (S (S f))) with (Z.succ (Z.of_nat (S f))) in Hn by lia.
        rewrite Z.pow_succ_r in Hn by lia.
        split; [apply Z.div_pos; lia |].
        apply Z.div_lt_upper_bound; lia.
Qed.

Lemma str_nat_fuel n : 0 <= n -> n < 10 ^ Z.of_nat (S (Z.to_nat (Z.log2 n))).
Proof.
  intros Hn. rewrite Nat2Z.inj_succ, Z2Nat.id by apply Z.log2_nonneg.
  destruct (Z.eq_dec n 0) as [-> | Hne]; [reflexivity |].
  pose proof (Z.log2_spec n ltac:(lia)) as [_ H].
  eapply Z.lt_le_trans; [exact H |].
  apply Z.pow_le_mono_l. lia.
Qed.

Lemma all_digits_str_nat n : all_digits (str_nat n) = true.
Proof. now apply all_digits_str_digits. Qed.

Lemma digits_val_str_nat n : 0 <= n -> digits_val (str_nat n) 0 = n.
Proof.
  intros Hn. unfold str_nat.
  now rewrite digits_val_str_digits by (split; [assumption | now apply str_nat_fuel]).
Qed.

(** [int(str(n)) == n] for natural numbers. *)
Lemma int_str n : 0 <= n -> int (str n) = Return n.
Proof.
  intros Hn. unfold str. destruct (Z.ltb_spec n 0); [lia |].
  destruct (str_digits_cons (Z.to_nat (Z.log2 n)) n "") as (c & s & E).
  pose proof (all_digits_str_nat n) as Hd.
  pose proof (digits_val_str_nat n Hn) as Hv.
  unfold str_nat in *. rewrite E in *.
  rewrite int_all_digits by assumption. now rewrite Hv.
Qed.

Lemma zeros_app_digits k s :
  all_digits s = true ->
  all_digits (String.concat "" (repeat "0" k) ++ s) = true
  /\ digits_val (String.concat "" (repeat "0" k) ++ s) 0 = digits_val s 0.
Proof.
  intros Hs. induction k as [| k [IH1 IH2]]; [now split |].
  assert (E : String.concat "" (repeat "0" (S k)) ++ s
              = String "0" (String.concat "" (repeat "0" k) ++ s)).
  { simpl. destruct (repeat "0" k); reflexivity. }
  rewrite E. split; simpl; assumption.
Qed.

Lemma format_02d_digits n :
  0 <= n ->
  all_digits (format_02d n) = true /\ digits_val (format_02d n) 0 = n.
Proof.
  intros Hn. unfold format_02d, zfill. destruct (Z.ltb_spec n 0); [lia |].
  destruct (zeros_app_digits (2 - String.length (str_nat n)) (str_nat n)
              (all_digits_str_nat n)) as [H1 H2].
  split; [assumption |]. now rewrite H2, digits_val_str_nat.
Qed.

Lemma format_02d_cons n : 0 <= n -> exists c s, format_02d n = String c s.
Proof.
  intros Hn. unfold format_02d, zfill. destruct (Z.ltb_spec n 0); [lia |].
  destruct (str_digits_cons (Z.to_nat (Z.log2 n)) n "") as (c & s & E).
  unfold str_nat. rewrite E.
  destruct (String.concat "" (repeat "0" (2 - String.length (String c s))));
    simpl; eauto.
Qed.

(** The code reads back the numbers it printed into a week string. *)
Lemma week_fields_week_string y k :
  0 <= y -> 0 <= k -> week_fields (week_string y k) = Return (y, k).
Proof.
  intros Hy Hk. unfold week_fields, week_string.
  destruct (format_02d_digits k Hk) as [Hd Hv].
  assert (Hys : all_digits (str y) = true).
  { unfold str. destruct (Z.ltb_spec y 0); [lia | apply all_digits_str_nat]. }
  rewrite split_digits_dash_W by assumption. simpl.
  rewrite int_str by assumption. simpl.
  destruct (format_02d_cons k Hk) as (c & s & E). rewrite E in *.
  rewrite int_all_digits by assumption. now rewrite Hv.
Qed.

(** ** Fixed-width forms *)

Lemma str_digits_fuel f f' n acc :
  0 <= n < 10 ^ Z.of_nat (S f) -> n < 10 ^ Z.of_nat (S f') ->
  str_digits f n acc = str_digits f' n acc.
Proof.
  revert f' n acc. induction f as [| f IH]; intros [| f'] n acc Hn Hn';
    try reflexivity.
  - change (10 ^ Z.of_nat 1) with 10 in Hn. simpl.
    destruct (Z.ltb_spec n 10); [reflexivity | lia].
  - change (10 ^ Z.of_nat 1) with 10 in Hn'. simpl.
    destruct (Z.ltb_spec n 10); [reflexivity | lia].
  - simpl. destruct (Z.ltb_spec n 10); [reflexivity |].
    replace (Z.of_nat (S (S f))) with (Z.succ (Z.of_nat (S f))) in Hn by lia.
    replace (Z.of_nat (S (S f'))) with (Z.succ (Z.of_nat (S f'))) in Hn' by lia.
    rewrite Z.pow_succ_r in Hn, Hn' by lia.
    apply IH; [split; [apply Z.div_pos; lia |] |];
      apply Z.div_lt_upper_bound; lia.
Qed.

Lemma str_nat_fuel_eq f n :
  0 <= n < 10 ^ Z.of_nat (S f) -> str_nat n = str_digits f n "".
Proof.
  intros Hn. unfold str_nat. apply str_digits_fuel; [| lia].
  split; [lia | apply str_nat_fuel; lia].
Qed.

Lemma str_4digits y :
  1000 <= y <= 9999 ->
  str y = String (digit_char (y / 1000))
            (String (digit_char (y / 100 mod 10))
               (String (digit_char (y / 10 mod 10))
                  (String (digit_char (y mod 10)) ""))).
Proof.
  intros Hy. unfold str. destruct (Z.ltb_spec y 0); [lia |].
  rewrite (str_nat_fuel_eq 3) by (change (10 ^ Z.of_nat 4) with 10000; lia).
  cbn [str_digits].
  destruct (Z.ltb_spec y 10); [lia |].
  destruct (Z.ltb_spec (y / 10) 10); [exfalso; Z.div_mod_to_equations; lia |].
  destruct (Z.ltb_spec (y / 10 / 10) 10); [exfalso; Z.div_mod_to_equations; lia |].
  rewrite !Z.div_div by lia. change (10 * 10) with 100. change (100 * 10) with 1000.
  rewrite (Z.mod_small (y / 1000)) by (Z.div_mod_to_equations; lia).
  reflexivity.
Qed.

Lemma format_02d_2digits k :
  0 <= k <= 99 ->
  format_02d k = String (digit_char (k / 10)) (String (digit_char (k mod 10)) "").
Proof.
  intros Hk. unfold format_02d. destruct (Z.ltb_spec k 0); [lia |].
  rewrite (str_nat_fuel_eq 1) by (change (10 ^ Z.of_nat 2) with 100; lia).
  cbn [str_digits]. destruct (Z.ltb_spec k 10).
  - rewrite Z.div_small by lia. reflexivity.
  - rewrite (Z.mod_small (k / 10)) by (Z.div_mod_to_equations; lia).
    reflexivity.
Qed.

(** The shape of the eight-character ASCII strings that the validator
    accepts. *)
Lemma validate_8 w :
  isascii w = true -> validate_iso_week_format w = true -> len w = 8%nat ->
  exists y1 y2 y3 y4 w1 w2,
    w = String y1 (String y2 (String y3 (String y4
          (String "-" (String "W" (String w1 (String w2 ""))))))) /\
    ascii_digit y1 = true /\ ascii_digit y2 = true /\ ascii_digit y3 = true /\
    ascii_digit y4 = true /\ ascii_digit w1 = true /\ ascii_digit w2 = true.
Proof.
  intros Ha Hv Hl. rewrite len_isascii in Hl by assumption.
  unfold validate_iso_week_format in Hv.
  rewrite code_points_isascii in Hv by assumption.
  do 8 (destruct w as [| ? w]; [discriminate |]).
  destruct w; [| discriminate]. cbn [byte_codes] in Hv.
  rewrite !is_digit_byte in Hv.
  repeat match type of Hv with
         | _ && _ = true => apply andb_true_iff in Hv as [Hv ?]
         end.
  repeat match goal with
         | H : (N_of_ascii ?c =? ?n)%N = true |- _ =>
             apply N.eqb_eq in H;
             apply (f_equal ascii_of_N) in H;
             rewrite ascii_N_embedding in H; cbn in H; subst c
         end.
  do 6 eexists. split; [reflexivity |]. tauto.
Qed.

(** The numbers that the code reads off such a string. *)
Lemma week_fields_8 y1 y2 y3 y4 w1 w2 :
  ascii_digit y1 = true -> ascii_digit y2 = true -> ascii_digit y3 = true ->
  ascii_digit y4 = true -> ascii_digit w1 = true -> ascii_digit w2 = true ->
  week_fields (String y1 (String y2 (String y3 (String y4
                 (String "-" (String "W" (String w1 (String w2 ""))))))))
  = Return (1000 * ascii_digit_val y1 + 100 * ascii_digit_val y2
            + 10 * ascii_digit_val y3 + ascii_digit_val y4,
            10 * ascii_digit_val w1 + ascii_digit_val w2).
Proof.
  intros H1 H2 H3 H4 H5 H6. unfold week_fields.
  change (String y1 (String y2 (String y3 (String y4
            (String "-" (String "W" (String w1 (String w2 ""))))))))
    with (String y1 (String y2 (String y3 (String y4 ""))) ++ "-W"
          ++ String w1 (String w2 "")).
  assert (Hy : all_digits (String y1 (String y2 (String y3 (String y4 ""))))
               = true) by (cbn; now rewrite H1, H2, H3, H4).
  assert (Hw : all_digits (String w1 (String w2 "")) = true)
    by (cbn; now rewrite H5, H6).
  rewrite split_digits_dash_W by assumption.
  cbn [unpack2 mbind outcome_bind].
  rewrite !int_all_digits by assumption.
  cbn [mbind outcome_bind mret outcome_ret digits_val]. do 2 f_equal; lia.
Qed.

(** An accepted eight-character ASCII string whose year has four
    significant digits is the week string of its own fields. *)
Lemma valid_week_canonical w y k :
  isascii w = true -> validate_iso_week_format w = true -> len w = 8%nat ->
  week_fields w = Return (y, k) -> 1000 <= y ->
  w = week_string y k /\ y <= 9999 /\ 0 <= k <= 99.
Proof.
  intros Ha Hv Hl Hf Hy.
  destruct (validate_8 w Ha Hv Hl)
    as (y1 & y2 & y3 & y4 & w1 & w2 & -> & H1 & H2 & H3 & H4 & H5 & H6).
  rewrite week_fields_8 in Hf by assumption. injection Hf as Ey Ek.
  pose proof (digit_val_range _ H1). pose proof (digit_val_range _ H2).
  pose proof (digit_val_range _ H3). pose proof (digit_val_range _ H4).
  pose proof (digit_val_range _ H5). pose proof (digit_val_range _ H6).
  assert (Hy' : y <= 9999) by lia. assert (Hk : 0 <= k <= 99) by lia.
  split; [| split; assumption].
  unfold week_string. rewrite str_4digits, format_02d_2digits by lia.
  replace (y / 1000) with (ascii_digit_val y1) by (Z.div_mod_to_equations; lia).
  replace (y / 100 mod 10) with (ascii_digit_val y2)
    by (Z.div_mod_to_equations; lia).
  replace (y / 10 mod 10) with (ascii_digit_val y3)
    by (Z.div_mod_to_equations; lia).
  replace (y mod 10) with (ascii_digit_val y4) by (Z.div_mod_to_equations; lia).
  replace (k / 10) with (ascii_digit_val w1) by (Z.div_mod_to_equations; lia).
  replace (k mod 10) with (ascii_digit_val w2) by (Z.div_mod_to_equations; lia).
  now rewrite !digit_char_val by assumption.
Qed.

(** The examples of the specification. *)
Example validate_iso_week_format_examples :
  validate_iso_week_format "2024-W01" = true /\
  validate_iso_week_format "2024-1" = false /\
  validate_iso_week_format "24-W01" = false.
Proof. repeat split. Qed.

End PyStrFacts.

(* ===================================================================== *)
(** * Part VI. Facts about the proleptic Gregorian calendar               *)
(* ===================================================================== *)

Section CalendarFacts.

Lemma days_before_year_succ y :
  days_before_year (y + 1)
  = days_before_year y + (if is_leap y then 366 else 365).
Proof.
  unfold days_before_year, is_leap.
  replace (y + 1 - 1) with (y - 1 + 1) by lia.
  destruct (Z.eqb_spec (y mod 4) 0), (Z.eqb_spec (y mod 100) 0),
    (Z.eqb_spec (y mod 400) 0); cbn [andb orb negb];
    Z.div_mod_to_equations; lia.
Qed.

Lemma days_before_year_lt y : days_before_year y < days_before_year (y + 1).
Proof. rewrite days_before_year_succ. destruct (is_leap y); lia. Qed.

Lemma days_before_year_mono y1 y2 :
  y1 <= y2 -> days_before_year y1 <= days_before_year y2.
Proof.
  intros H. replace y2 with (y1 + Z.of_nat (Z.to_nat (y2 - y1))) by lia.
  induction (Z.to_nat (y2 - y1)) as [| k IH]; [now rewrite Z.add_0_r |].
  rewrite Nat2Z.inj_succ, <- Z.add_succ_comm, <- Z.add_1_r.
  replace (y1 + 1 + Z.of_nat k) with (y1 + Z.of_nat k + 1) by lia.
  pose proof (days_before_year_lt (y1 + Z.of_nat k)). lia.
Qed.

Lemma month_day_spec n leapyear :
  0 <= n <= 364 ->
  let '(m, d) := month_day n leapyear in
  1 <= m <= 12 /\ 1 <= d /\
  DAYS_BEFORE_MONTH m + (if (m >? 2) && leapyear then 1 else 0) + d = n + 1.
Proof.
  intros Hn.
  assert (H : forallb (month_day_ok leapyear) (seq 0 365) = true)
    by (destruct leapyear; vm_compute; reflexivity).
  rewrite forallb_forall in H. specialize (H (Z.to_nat n)).
  unfold month_day_ok in H. rewrite Z2Nat.id in H by lia.
  destruct (month_day n leapyear) as [m d].
  assert (Hin : In (Z.to_nat n) (seq 0 365)) by (apply in_seq; lia).
  apply H in Hin.
  repeat match type of Hin with
         | _ && _ = true => apply andb_true_iff in Hin as [Hin ?]
         end.
  lia.
Qed.

Lemma ord2ymd_eq n :
  ord2ymd n =
    let a := (n - 1) / 146097 in
    let r1 := (n - 1) mod 146097 in
    let b := r1 / 36524 in
    let r2 := r1 mod 36524 in
    let c := r2 / 1461 in
    let r3 := r2 mod 1461 in
    let e := r3 / 365 in
    let r4 := r3 mod 365 in
    let y := a * 400 + 1 + b * 100 + c * 4 + e in
    if (e =? 4) || (b =? 4) then (y - 1, 12, 31)
    else
      let '(m, d) :=
        month_day r4 ((e =? 3) && (negb (c =? 24) || (b =? 3))) in
      (y, m, d).
Proof.
  unfold ord2ymd, month_day, DI400Y, DI100Y, DI4Y. cbv zeta.
  destruct (_ || _); [reflexivity |].
  destruct (_ >? _); reflexivity.
Qed.

(** [ord2ymd] inverts [ymd2ord] and lands in the year that contains the
    ordinal. *)
Lemma ord2ymd_spec n :
  1 <= n ->
  exists y m d,
    ord2ymd n = (y, m, d) /\ ymd2ord y m d = n /\
    days_before_year y < n <= days_before_year (y + 1).
Proof.
  intros Hn. rewrite ord2ymd_eq. cbv zeta.
  set (a := (n - 1) / 146097). set (r1 := (n - 1) mod 146097).
  set (b := r1 / 36524). set (r2 := r1 mod 36524).
  set (c := r2 / 1461). set (r3 := r2 mod 1461).
  set (e := r3 / 365). set (r4 := r3 mod 365).
  assert (H1 : n - 1 = 146097 * a + r1 /\ 0 <= r1 < 146097 /\ 0 <= a)
    by (subst a r1; Z.div_mod_to_equations; lia).
  assert (H2 : r1 = 36524 * b + r2 /\ 0 <= r2 < 36524 /\ 0 <= b <= 4)
    by (subst b r2; Z.div_mod_to_equations; lia).
  assert (H3 : r2 = 1461 * c + r3 /\ 0 <= r3 < 1461 /\ 0 <= c <= 24)
    by (subst c r3; Z.div_mod_to_equations; lia).
  assert (H4 : r3 = 365 * e + r4 /\ 0 <= r4 < 365 /\ 0 <= e <= 4)
    by (subst e r4; Z.div_mod_to_equations; lia).
  clearbody a r1 b r2 c r3 e r4.
  set (y := a * 400 + 1 + b * 100 + c * 4 + e).
  assert (Hdby : days_before_year y
                 = 146097 * a + 36524 * b + 1461 * c + 365 * e
                   + (if e =? 4 then 1 else 0) + (if b =? 4 then 1 else 0)).
  { unfold days_before_year. subst y.
    destruct (Z.eqb_spec e 4), (Z.eqb_spec b 4); Z.div_mod_to_equations; lia. }
  destruct (Z.eqb_spec e 4) as [He | He]; [| destruct (Z.eqb_spec b 4) as [Hb | Hb]];
    cbn [orb].
  - (* last day of a leap year inside a four-year cycle *)
    exists (y - 1), 12, 31. split; [reflexivity |].
    assert (Hl : is_leap (y - 1) = true).
    { unfold is_leap. subst y.
      destruct (Z.eqb_spec ((a * 400 + 1 + b * 100 + c * 4 + e - 1) mod 4) 0);
        [| exfalso; Z.div_mod_to_equations; lia].
      destruct (Z.eqb_spec ((a * 400 + 1 + b * 100 + c * 4 + e - 1) mod 100) 0);
        [exfalso; Z.div_mod_to_equations; lia | reflexivity]. }
    pose proof (days_before_year_succ (y - 1)) as Hs. rewrite Hl in Hs.
    replace (y - 1 + 1) with y in * by lia.
    destruct (Z.eqb_spec e 4); [| lia]. destruct (Z.eqb_spec b 4); [lia |].
    unfold ymd2ord, days_before_month. rewrite Hl. cbn. lia.
  - (* last day of a 400-year cycle *)
    exists (y - 1), 12, 31. split; [reflexivity |].
    assert (Hl : is_leap (y - 1) = true).
    { unfold is_leap. subst y.
      destruct (Z.eqb_spec ((a * 400 + 1 + b * 100 + c * 4 + e - 1) mod 4) 0);
        [| exfalso; Z.div_mod_to_equations; lia].
      destruct (Z.eqb_spec ((a * 400 + 1 + b * 100 + c * 4 + e - 1) mod 400) 0);
        [| exfalso; Z.div_mod_to_equations; lia].
      now rewrite orb_true_r. }
    pose proof (days_before_year_succ (y - 1)) as Hs. rewrite Hl in Hs.
    replace (y - 1 + 1) with y in * by lia.
    destruct (Z.eqb_spec e 4); [lia |]. destruct (Z.eqb_spec b 4); [| lia].
    unfold ymd2ord, days_before_month. rewrite Hl. cbn. lia.
  - (* any other day *)
    set (L := (e =? 3) && (negb (c =? 24) || (b =? 3))).
    assert (Hl : is_leap y = L).
    { unfold is_leap. subst y L.
      destruct (Z.eqb_spec e 3), (Z.eqb_spec c 24), (Z.eqb_spec b 3);
        cbn [andb orb negb];
        repeat match goal with
               | |- context [?x mod ?k =? 0] => destruct (Z.eqb_spec (x mod k) 0)
               end; cbn [andb orb negb]; try reflexivity;
        exfalso; Z.div_mod_to_equations; lia. }
    pose proof (month_day_spec r4 L ltac:(lia)) as Hmd.
    destruct (month_day r4 L) as [m d]. destruct Hmd as (Hm & Hd & Hsum).
    exists y, m, d. split; [reflexivity |].
    pose proof (days_before_year_succ y) as Hs.
    unfold ymd2ord, days_before_month. rewrite Hl.
    destruct (Z.eqb_spec e 4); [lia |]. destruct (Z.eqb_spec b 4); [lia |].
    destruct (is_leap y); lia.
Qed.

(** Inside year [y], [ord2ymd] returns [y]. *)
Lemma ord2ymd_in_year y n :
  days_before_year y < n <= days_before_year (y + 1) -> 1 <= n ->
  exists m d, ord2ymd n = (y, m, d) /\ ymd2ord y m d = n.
Proof.
  intros Hy Hn. destruct (ord2ymd_spec n Hn) as (y' & m & d & E & Ho & Hy').
  assert (y' = y); [| subst; eauto].
  destruct (Z.lt_trichotomy y' y) as [Hlt | [-> | Hgt]]; [| reflexivity |].
  - pose proof (days_before_year_mono (y' + 1) y ltac:(lia)). lia.
  - pose proof (days_before_year_mono (y + 1) y' ltac:(lia)). lia.
Qed.

End CalendarFacts.

(* ===================================================================== *)
(** * Part VII. The week conversions of [datetime_utils.py]               *)
(* ===================================================================== *)

Section WeekConversions.

Lemma iso_week_to_date_range_fields w :
  iso_week_to_date_range w = week_fields w ≫= (fun '(y, k) => week_span y k).
Proof.
  unfold iso_week_to_date_range, week_fields, week_span.
  destruct (PyStr.unpack2 _) as [[ys ks] | e]; [| reflexivity]. cbn.
  destruct (PyStr.int ys) as [y | e]; [| reflexivity]. cbn.
  destruct (PyStr.int ks) as [k | e]; reflexivity.
Qed.

Lemma next_week_fields w :
  next_week w
  = week_fields w ≫= (fun '(year, week) =>
      if week =? 52 then mret (PyStr.str (year + 1) ++ "-W01")
      else mret (week_string year (week + 1))).
Proof.
  unfold next_week, week_fields, week_string.
  destruct (PyStr.unpack2 _) as [[ys ks] | e]; [| reflexivity]. cbn.
  destruct (PyStr.int ys) as [y | e]; [| reflexivity]. cbn.
  destruct (PyStr.int ks) as [k | e]; reflexivity.
Qed.

Lemma timedelta_whole_days w d :
  Z.abs (w * 7 + d) <= 999999999 ->
  timedelta w d 0 0 0 = Return (mk_timedelta (w * 7 + d) 0).
Proof.
  intros H. unfold timedelta.
  replace (((w * 7 + d) * 24 + 0) * 3600 + 0 * 60 + 0)
    with ((w * 7 + d) * 86400) by lia.
  rewrite Z.div_mul, Z.mod_mul by lia.
  destruct (Z.gtb_spec (Z.abs (w * 7 + d)) 999999999); [lia | reflexivity].
Qed.

(** Adding whole days to a midnight that stays inside year [y]. *)
Lemma add_whole_days dt dd y :
  hour dt = 0 -> minute dt = 0 -> second dt = 0 ->
  1 <= y <= 9999 ->
  days_before_year y < toordinal dt + dd <= days_before_year (y + 1) ->
  exists dt',
    add dt (mk_timedelta dd 0) = Return dt' /\ year dt' = y /\
    toordinal dt' = toordinal dt + dd /\
    hour dt' = 0 /\ minute dt' = 0 /\ second dt' = 0.
Proof.
  intros Hh Hm Hs Hy Hn. unfold add. rewrite Hh, Hm, Hs. cbn [td_seconds td_days].
  change ((0 * 3600 + 0 * 60 + 0 + 0) / 86400) with 0.
  change ((0 * 3600 + 0 * 60 + 0 + 0) mod 86400) with 0.
  rewrite Z.add_0_r.
  assert (H0 : 0 <= days_before_year y).
  { change 0 with (days_before_year 1). apply days_before_year_mono. lia. }
  assert (Hmax : days_before_year (y + 1) <= MAXORDINAL).
  { change MAXORDINAL with (days_before_year 10000).
    apply days_before_year_mono. lia. }
  destruct (Z.ltb_spec 0 (toordinal dt + dd)); [| lia].
  destruct (Z.leb_spec (toordinal dt + dd) MAXORDINAL); [| lia].
  cbn [andb].
  destruct (ord2ymd_in_year y (toordinal dt + dd) Hn ltac:(lia))
    as (m & d & E & Ho).
  rewrite E. eexists. split; [reflexivity |]. cbn. auto.
Qed.

(** [add] raises only when the day leaves the supported range. *)
Lemma add_in_range dt delta :
  let secs := hour dt * 3600 + minute dt * 60 + second dt + td_seconds delta in
  0 < toordinal dt + td_days delta + secs / 86400 <= MAXORDINAL ->
  exists dt', add dt delta = Return dt'.
Proof.
  cbv zeta. intros H. unfold add.
  destruct (Z.ltb_spec 0 (toordinal dt + td_days delta
     + (hour dt * 3600 + minute dt * 60 + second dt + td_seconds delta) / 86400));
    [| lia].
  destruct (Z.leb_spec (toordinal dt + td_days delta
     + (hour dt * 3600 + minute dt * 60 + second dt + td_seconds delta) / 86400)
     MAXORDINAL); [| lia].
  cbn [andb]. destruct (ord2ymd _) as [[y m] d]. eauto.
Qed.

(** In a year that begins on a Monday, the start of week [k] is the
    Monday [7 * (k - 1)] days after the first of January. *)
Lemma week_span_monday_year y k :
  1 <= y <= 9999 -> 1 <= k <= 52 -> jan1_weekday y = 0 ->
  exists week_start week_end,
    week_span y k = Return (week_start, week_end) /\
    year week_start = y /\
    toordinal week_start = ymd2ord y 1 1 + 7 * (k - 1).
Proof.
  intros Hy Hk Hw. unfold week_span, PyDateTime.new, MINYEAR, MAXYEAR.
  destruct (Z.leb_spec 1 y); [| lia]. destruct (Z.leb_spec y 9999); [| lia].
  assert (Hdim : days_in_month y 1 = 31) by reflexivity. rewrite Hdim.
  cbn [andb negb Z.leb Z.compare Pos.compare Pos.compare_cont mbind outcome_bind].
  set (jan_1 := mk_datetime y 1 1 0 0 0).
  assert (Hwd : weekday jan_1 = 0) by exact Hw. rewrite Hwd.
  change ((7 - 0) mod 7) with 0. change (0 >? 3) with false. cbv iota.
  rewrite (timedelta_whole_days 0 0) by (cbn; lia). cbn [mbind outcome_bind].
  pose proof (days_before_year_succ y) as Hsucc.
  assert (Hj : toordinal jan_1 = days_before_year y + 1).
  { unfold jan_1, toordinal, ymd2ord. cbn [year month day].
    change (days_before_month y 1) with 0. lia. }
  destruct (add_whole_days jan_1 (0 * 7 + 0) y) as (fm & -> & Hfy & Hfo & Hf1 & Hf2 & Hf3);
    try reflexivity; try assumption.
  { rewrite Hj. destruct (is_leap y); lia. }
  cbn [mbind outcome_bind].
  rewrite (timedelta_whole_days (k - 1) 0) by lia. cbn [mbind outcome_bind].
  destruct (add_whole_days fm ((k - 1) * 7 + 0) y)
    as (ws & -> & Hwy & Hwo & Hw1 & Hw2 & Hw3); try assumption.
  { rewrite Hfo, Hj. destruct (is_leap y); lia. }
  cbn [mbind outcome_bind].
  change (timedelta 0 6 23 59 59) with (Return (mk_timedelta 6 86399)).
  cbn [mbind outcome_bind].
  destruct (add_in_range ws (mk_timedelta 6 86399)) as (we & ->).
  { cbv zeta. rewrite Hw1, Hw2, Hw3, Hwo, Hfo, Hj. cbn [td_seconds td_days].
    change ((0 * 3600 + 0 * 60 + 0 + 86399) / 86400) with 0.
    assert (Hmin : 0 <= days_before_year y).
    { change 0 with (days_before_year 1). apply days_before_year_mono. lia. }
    assert (Hmax : days_before_year (y + 1) <= MAXORDINAL).
    { change MAXORDINAL with (days_before_year 10000).
      apply days_before_year_mono. lia. }
    destruct (is_leap y); lia. }
  cbn [mbind outcome_bind mret outcome_ret].
  exists ws, we. split; [reflexivity |]. split; [assumption |].
  rewrite Hwo, Hfo. unfold jan_1, toordinal. cbn [year month day]. lia.
Qed.

(** The ISO calendar of that Monday: year [y], week [k]. *)
Lemma date_to_iso_week_monday_year dt y k :
  1 <= k <= 52 -> jan1_weekday y = 0 ->
  year dt = y -> toordinal dt = ymd2ord y 1 1 + 7 * (k - 1) ->
  date_to_iso_week dt = week_string y k.
Proof.
  intros Hk Hw Hy Ho. unfold date_to_iso_week, isocalendar, isoweek1monday.
  rewrite Hy, Ho. fold (jan1_weekday y). rewrite Hw. cbn [Z.gtb Z.compare].
  replace (ymd2ord y 1 1 + 7 * (k - 1) - (ymd2ord y 1 1 - 0))
    with ((k - 1) * 7) by lia.
  rewrite Z.div_mul, Z.mod_mul by lia.
  destruct (Z.ltb_spec (k - 1) 0); [lia |].
  destruct (Z.geb_spec (k - 1) 52); [lia |]. cbn [andb].
  unfold week_string. now replace (k - 1 + 1) with k by lia.
Qed.

(** A week string with a misplaced first Monday, for the record. *)
Example round_trip_2025_W01 : round_trip "2025-W01" = Return "2025-W02".
Proof. vm_compute. reflexivity. Qed.

(** C1 (as stated) fails: the validator accepts week number 00, which is
    the week before week 01 and so belongs to the previous ISO year. *)
Lemma round_trip_week_00 :
  validate_iso_week_format "2024-W00" = true /\
  round_trip "2024-W00" = Return "2023-W52" /\
  round_trip "2024-W00" <> Return "2024-W00".
Proof. vm_compute. repeat split; discriminate. Qed.

(** A week string written with the digits of another script passes the
    validator and is read as the same week, and what comes back is
    written with ASCII digits: it is another string. *)
Example round_trip_fullwidth_digits :
  validate_iso_week_format "２０２４-W０７" = true /\
  PyStr.len "２０２４-W０７" = 8%nat /\
  week_fields "２０２４-W０７" = Return (2024, 7) /\
  round_trip "２０２４-W０７" = Return "2024-W07".
Proof. vm_compute. repeat split. Qed.

(** C1 (amended): for an ASCII eight-character week string YYYY-Www
    accepted by the validator, with YYYY at least 1000, ww between 01 and
    52, and a year whose first of January is a Monday, converting the
    start of the date range back to an ISO week gives the string again. *)
Theorem round_trip_monday_year w y k :
  PyStr.isascii w = true ->
  validate_iso_week_format w = true -> PyStr.len w = 8%nat ->
  week_fields w = Return (y, k) ->
  1000 <= y -> 1 <= k <= 52 -> jan1_weekday y = 0 ->
  round_trip w = Return w.
Proof.
  intros Ha Hv Hl Hf Hy Hk Hw.
  destruct (valid_week_canonical w y k Ha Hv Hl Hf Hy) as (Ew & Hy' & _).
  unfold round_trip. rewrite iso_week_to_date_range_fields, Hf.
  cbn [mbind outcome_bind].
  destruct (week_span_monday_year y k ltac:(lia) Hk Hw)
    as (ws & we & -> & Hwy & Hwo).
  cbn [mbind outcome_bind mret outcome_ret].
  now rewrite (date_to_iso_week_monday_year ws y k Hk Hw Hwy Hwo), Ew.
Qed.

Lemma round_trip_monday_year_witness :
  PyStr.isascii "2024-W07" = true /\
  validate_iso_week_format "2024-W07" = true /\
  week_fields "2024-W07" = Return (2024, 7) /\
  jan1_weekday 2024 = 0 /\
  round_trip "2024-W07" = Return "2024-W07".
Proof.
  split; [reflexivity |].
  split; [reflexivity | split; [reflexivity | split; [reflexivity |]]].
  apply (round_trip_monday_year "2024-W07" 2024 7);
    try reflexivity; try lia.
Defined.

End WeekConversions.

(* ===================================================================== *)
(** * Part VIII. [get_week_range]                                         *)
(* ===================================================================== *)

Section WeekRange.
Import PyStr.

Lemma le_code_points_digits c c' a b :
  ascii_digit c = true -> ascii_digit c' = true ->
  le_code_points (N_of_ascii c :: a) (N_of_ascii c' :: b)
  = match ascii_digit_val c ?= ascii_digit_val c' with
    | Lt => true
    | Gt => false
    | Eq => le_code_points a b
    end.
Proof.
  intros H%ascii_digit_range H'%ascii_digit_range.
  cbn [le_code_points]. unfold ascii_digit_val.
  destruct (N.ltb_spec (N_of_ascii c) (N_of_ascii c'));
    destruct (N.ltb_spec (N_of_ascii c') (N_of_ascii c));
    destruct (Z.compare_spec (Z.of_N (N_of_ascii c) - 48)
                (Z.of_N (N_of_ascii c') - 48));
    try reflexivity; lia.
Qed.

(** On accepted eight-character ASCII strings the string order is the
    order of the (year, week) pairs. *)
Lemma le_valid8 w w' y k y' k' :
  isascii w = true -> validate_iso_week_format w = true -> len w = 8%nat ->
  isascii w' = true -> validate_iso_week_format w' = true -> len w' = 8%nat ->
  week_fields w = Return (y, k) -> week_fields w' = Return (y', k') ->
  0 <= k <= 99 /\ 0 <= k' <= 99 /\ 0 <= y <= 9999 /\ 0 <= y' <= 9999 /\
  le w w' = (100 * y + k <=? 100 * y' + k').
Proof.
  intros Ha Hv Hl Ha' Hv' Hl' Hf Hf'.
  destruct (validate_8 w Ha Hv Hl)
    as (a1 & a2 & a3 & a4 & a5 & a6 & -> & A1 & A2 & A3 & A4 & A5 & A6).
  destruct (validate_8 w' Ha' Hv' Hl')
    as (b1 & b2 & b3 & b4 & b5 & b6 & -> & B1 & B2 & B3 & B4 & B5 & B6).
  rewrite week_fields_8 in Hf, Hf' by assumption.
  injection Hf as Ey Ek. injection Hf' as Ey' Ek'.
  pose proof (digit_val_range _ A1). pose proof (digit_val_range _ A2).
  pose proof (digit_val_range _ A3). pose proof (digit_val_range _ A4).
  pose proof (digit_val_range _ A5). pose proof (digit_val_range _ A6).
  pose proof (digit_val_range _ B1). pose proof (digit_val_range _ B2).
  pose proof (digit_val_range _ B3). pose proof (digit_val_range _ B4).
  pose proof (digit_val_range _ B5). pose proof (digit_val_range _ B6).
  repeat (split; [lia |]).
  unfold le. rewrite !code_points_isascii by assumption.
  cbn [byte_codes].
  rewrite !le_code_points_digits by assumption.
  change (le_code_points (N_of_ascii "-" :: N_of_ascii "W" :: ?x)
            (N_of_ascii "-" :: N_of_ascii "W" :: ?y))
    with (le_code_points x y).
  rewrite !le_code_points_digits by assumption.
  cbn [le_code_points].
  repeat match goal with
         | |- context [?a ?= ?b] => destruct (Z.compare_spec a b)
         end;
    destruct (Z.leb_spec (100 * y + k) (100 * y' + k')); try reflexivity; lia.
Qed.

Lemma week_string_valid y k :
  1000 <= y <= 9999 -> 0 <= k <= 99 ->
  isascii (week_string y k) = true /\
  validate_iso_week_format (week_string y k) = true /\
  len (week_string y k) = 8%nat.
Proof.
  intros Hy Hk. unfold week_string.
  rewrite str_4digits, format_02d_2digits by assumption.
  assert (D1 : ascii_digit (digit_char (y / 1000)) = true)
    by (apply digit_char_is_digit; Z.div_mod_to_equations; lia).
  assert (D2 : ascii_digit (digit_char (y / 100 mod 10)) = true)
    by (apply digit_char_is_digit; Z.div_mod_to_equations; lia).
  assert (D3 : ascii_digit (digit_char (y / 10 mod 10)) = true)
    by (apply digit_char_is_digit; Z.div_mod_to_equations; lia).
  assert (D4 : ascii_digit (digit_char (y mod 10)) = true)
    by (apply digit_char_is_digit; Z.div_mod_to_equations; lia).
  assert (D5 : ascii_digit (digit_char (k / 10)) = true)
    by (apply digit_char_is_digit; Z.div_mod_to_equations; lia).
  assert (D6 : ascii_digit (digit_char (k mod 10)) = true)
    by (apply digit_char_is_digit; Z.div_mod_to_equations; lia).
  assert (Ha : isascii
                 (String (digit_char (y / 1000))
                    (String (digit_char (y / 100 mod 10))
                       (String (digit_char (y / 10 mod 10))
                          (String (digit_char (y mod 10)) "")))
                  ++ "-W"
                  ++ String (digit_char (k / 10))
                       (String (digit_char (k mod 10)) "")) = true).
  { cbv beta iota fix delta [String.append isascii].
    change (N_of_ascii "-" <? 128)%N with true.
    change (N_of_ascii "W" <? 128)%N with true.
    rewrite !ascii_digit_below_128 by assumption. reflexivity. }
  split; [exact Ha |]. split.
  - unfold validate_iso_week_format.
    rewrite code_points_isascii by exact Ha.
    cbv beta iota fix delta [String.append byte_codes].
    rewrite !is_digit_byte, D1, D2, D3, D4, D5, D6. reflexivity.
  - rewrite len_isascii by exact Ha. reflexivity.
Qed.

Lemma next_week_week_string y k :
  0 <= y -> 0 <= k ->
  next_week (week_string y k)
  = Return (if k =? 52 then week_string (y + 1) 1 else week_string y (k + 1)).
Proof.
  intros Hy Hk. rewrite next_week_fields, week_fields_week_string by assumption.
  cbn [mbind outcome_bind]. now destruct (k =? 52).
Qed.

Lemma week_range_loop_S fuel current_week end_week weeks :
  week_range_loop (S fuel) current_week end_week weeks
  = if le current_week end_week then
      match next_week current_week with
      | Return next =>
          week_range_loop fuel next end_week (weeks ++ [current_week])%list
      | Raise e => Some (Raise e)
      end
    else Some (Return weeks).
Proof. reflexivity. Qed.

(** A run that has ended does not depend on the fuel left over. *)
Lemma week_range_loop_more_fuel end_week fuel :
  forall fuel' current_week weeks r,
    week_range_loop fuel current_week end_week weeks = Some r ->
    (fuel <= fuel')%nat ->
    week_range_loop fuel' current_week end_week weeks = Some r.
Proof.
  induction fuel as [| fuel IH]; intros fuel' current_week weeks r Hrun Hle;
    [discriminate |].
  destruct fuel' as [| fuel']; [lia |].
  rewrite week_range_loop_S in *.
  destruct (le current_week end_week); [| assumption].
  destruct (next_week current_week); [| assumption].
  apply IH; [assumption | lia].
Qed.

(** The loop of [get_week_range], started inside the range of weeks with
    four-digit years and week numbers up to 52, stops after the last week. *)
Lemma week_range_loop_spec end_week ye ke :
  isascii end_week = true ->
  validate_iso_week_format end_week = true -> len end_week = 8%nat ->
  week_fields end_week = Return (ye, ke) ->
  ke <= 52 -> ~ (ye = 9999 /\ ke = 52) ->
  forall n y k acc,
    1000 <= y <= 9999 -> 1 <= k <= 52 ->
    Z.of_nat n = 52 * (ye - y) + (ke - k) + 1 ->
    week_range_loop (S n) (week_string y k) end_week acc
    = Some (Return (acc ++ week_seq n y k)%list).
Proof.
  intros Ha Hv Hl Hf Hke Hmax. induction n as [| n IH]; intros y k acc Hy Hk Hn.
  - destruct (week_string_valid y k Hy ltac:(lia)) as (Ha' & Hv' & Hl').
    destruct (le_valid8 _ _ _ _ _ _ Ha' Hv' Hl' Ha Hv Hl
                (week_fields_week_string y k ltac:(lia) ltac:(lia)) Hf)
      as (_ & Hke0 & _ & Hye & Hle).
    rewrite week_range_loop_S, Hle.
    destruct (Z.leb_spec (100 * y + k) (100 * ye + ke)); [lia |].
    cbn [week_seq]. now rewrite app_nil_r.
  - destruct (week_string_valid y k Hy ltac:(lia)) as (Ha' & Hv' & Hl').
    destruct (le_valid8 _ _ _ _ _ _ Ha' Hv' Hl' Ha Hv Hl
                (week_fields_week_string y k ltac:(lia) ltac:(lia)) Hf)
      as (_ & Hke0 & _ & Hye & Hle).
    rewrite week_range_loop_S, Hle.
    destruct (Z.leb_spec (100 * y + k) (100 * ye + ke)); [| lia].
    rewrite next_week_week_string by lia. cbn [week_seq].
    destruct (Z.eqb_spec k 52) as [-> | Hne].
    + rewrite IH by lia. now rewrite <- app_assoc.
    + rewrite IH by lia. now rewrite <- app_assoc.
Qed.

(** The same from week 00, which is followed by week 01. *)
Lemma week_range_loop_spec_from_0 end_week ye ke :
  isascii end_week = true ->
  validate_iso_week_format end_week = true -> len end_week = 8%nat ->
  week_fields end_week = Return (ye, ke) ->
  ke <= 52 -> ~ (ye = 9999 /\ ke = 52) ->
  forall n y k acc,
    1000 <= y <= 9999 -> 0 <= k <= 52 ->
    100 * y + k <= 100 * ye + ke ->
    Z.of_nat n = 52 * (ye - y) + (ke - k) + 1 ->
    week_range_loop (S n) (week_string y k) end_week acc
    = Some (Return (acc ++ week_seq n y k)%list).
Proof.
  intros Ha Hv Hl Hf Hke Hmax n y k acc Hy Hk Hord Hn.
  destruct (Z.eq_dec k 0) as [-> | Hk0];
    [| now apply (week_range_loop_spec end_week ye ke); try lia].
  destruct (week_string_valid y 0 Hy ltac:(lia)) as (Ha' & Hv' & Hl').
  destruct (le_valid8 _ _ _ _ _ _ Ha' Hv' Hl' Ha Hv Hl
              (week_fields_week_string y 0 ltac:(lia) ltac:(lia)) Hf)
    as (_ & Hke0 & _ & Hye & Hle).
  destruct n as [| n]; [lia |].
  rewrite week_range_loop_S, Hle.
  destruct (Z.leb_spec (100 * y + 0) (100 * ye + ke)); [| lia].
  rewrite next_week_week_string by lia. cbn [week_seq Z.eqb].
  rewrite (week_range_loop_spec end_week ye ke) by (assumption || lia).
  now rewrite <- app_assoc.
Qed.

Lemma week_seq_head n y k :
  hd_error (week_seq (S n) y k) = Some (week_string y k).
Proof. reflexivity. Qed.

Lemma week_seq_last ye ke :
  1 <= ke <= 52 ->
  forall n y k,
    0 <= k <= 52 -> y <= ye ->
    Z.of_nat (S n) = 52 * (ye - y) + (ke - k) + 1 ->
    List.last (week_seq (S n) y k) "" = week_string ye ke.
Proof.
  intros Hke. induction n as [| n IH]; intros y k Hk Hy Hn.
  - cbn [week_seq]. destruct (k =? 52); cbn [List.last];
      f_equal; lia.
  - change (week_seq (S (S n)) y k)
      with (week_string y k
            :: (if k =? 52 then week_seq (S n) (y + 1) 1
                else week_seq (S n) y (k + 1))).
    destruct (Z.eqb_spec k 52) as [-> | Hne].
    + rewrite <- (IH (y + 1) 1) by lia. reflexivity.
    + rewrite <- (IH y (k + 1)) by lia. reflexivity.
Qed.

(** From week 53 on the loop never meets week 52 again: it goes through
    2020-W53, 2020-W54, ..., 2020-W99, 2020-W100, ..., all of which are
    below "2021-W01" as strings. *)
Lemma week_range_loop_2020_diverges fuel :
  forall n acc,
    53 <= n -> week_range_loop fuel (week_string 2020 n) "2021-W01" acc = None.
Proof.
  induction fuel as [| fuel IH]; intros n acc Hn; [reflexivity |].
  rewrite week_range_loop_S.
  assert (Hle : le (week_string 2020 n) "2021-W01" = true).
  { unfold week_string. change (str 2020) with "2020".
    generalize (format_02d n). intros s. reflexivity. }
  rewrite Hle, next_week_week_string by lia.
  destruct (Z.eqb_spec n 52); [lia |]. apply IH. lia.
Qed.

(** C4 (as stated) fails: 2020 has an ISO week 53, and from "2020-W53" to
    "2021-W01" the function never returns, whatever the number of
    iterations allowed. *)
Lemma get_week_range_2020_W53_diverges :
  validate_iso_week_format "2020-W53" = true /\
  validate_iso_week_format "2021-W01" = true /\
  le "2020-W53" "2021-W01" = true /\
  forall fuel, get_week_range fuel "2020-W53" "2021-W01" = None.
Proof.
  repeat split; try reflexivity. intros fuel.
  unfold get_week_range.
  change (validate_iso_week_format "2020-W53") with true.
  change (validate_iso_week_format "2021-W01") with true.
  cbn [negb orb].
  change "2020-W53" with (week_string 2020 53).
  apply week_range_loop_2020_diverges. lia.
Qed.

(** With an end written in the digits of another script the loop goes on
    for ever as well: the weeks it builds are written with ASCII digits
    and all of them sort before the end. *)
Lemma week_string_le_fullwidth y k :
  0 <= y -> le (week_string y k) "２０２４-W０３" = true.
Proof.
  intros Hy. unfold week_string, str.
  destruct (Z.ltb_spec y 0); [lia |].
  destruct (str_digits_cons (Z.to_nat (Z.log2 y)) y "") as (c & s & E).
  pose proof (all_digits_str_nat y) as Hd.
  unfold str_nat in *. rewrite E in *.
  apply andb_true_iff in Hd as [Hc _].
  change (String c s ++ "-W" ++ format_02d k)
    with (String c (s ++ "-W" ++ format_02d k)).
  unfold le. rewrite code_points_cons by now apply ascii_digit_below_128.
  apply ascii_digit_range in Hc.
  change (code_points "２０２４-W０３")
    with [65298; 65296; 65298; 65300; 45; 87; 65296; 65299]%N.
  cbn [le_code_points].
  destruct (N.ltb_spec (N_of_ascii c) 65298); [reflexivity | lia].
Qed.

Lemma week_range_loop_fullwidth_diverges fuel :
  forall y k acc,
    0 <= y -> 0 <= k ->
    week_range_loop fuel (week_string y k) "２０２４-W０３" acc = None.
Proof.
  induction fuel as [| fuel IH]; intros y k acc Hy Hk; [reflexivity |].
  rewrite week_range_loop_S, week_string_le_fullwidth by assumption.
  rewrite next_week_week_string by assumption.
  destruct (k =? 52); apply IH; lia.
Qed.

Example get_week_range_fullwidth_diverges :
  validate_iso_week_format "２０２４-W０１" = true /\
  validate_iso_week_format "２０２４-W０３" = true /\
  le "２０２４-W０１" "２０２４-W０３" = true /\
  forall fuel, get_week_range fuel "２０２４-W０１" "２０２４-W０３" = None.
Proof.
  split; [reflexivity | split; [reflexivity | split; [reflexivity |]]].
  intros [| fuel]; [reflexivity |].
  unfold get_week_range.
  change (validate_iso_week_format "２０２４-W０１") with true.
  change (validate_iso_week_format "２０２４-W０３") with true.
  cbn [negb orb]. rewrite week_range_loop_S.
  change (le "２０２４-W０１" "２０２４-W０３") with true.
  change (next_week "２０２４-W０１") with (Return (week_string 2024 2)).
  cbv iota. apply week_range_loop_fullwidth_diverges; lia.
Qed.

(** C4 (amended): for ASCII eight-character week strings accepted by the
    validator, with a start year of at least 1000, week numbers of at most
    52 (an end week 00 only when the end is the start), start <= end and
    an end other than 9999-W52, [get_week_range] terminates and returns
    the weeks from start to end inclusive, week 52 being followed by week
    01 of the next year and any other week by the next week of the same
    year. *)
Theorem get_week_range_within_52 start_week end_week ys ks ye ke :
  isascii start_week = true -> isascii end_week = true ->
  validate_iso_week_format start_week = true ->
  validate_iso_week_format end_week = true ->
  len start_week = 8%nat -> len end_week = 8%nat ->
  week_fields start_week = Return (ys, ks) ->
  week_fields end_week = Return (ye, ke) ->
  1000 <= ys -> ks <= 52 -> ke <= 52 ->
  (ke = 0 -> start_week = end_week) ->
  ~ (ye = 9999 /\ ke = 52) ->
  le start_week end_week = true ->
  let n := week_count ys ks ye ke in
  (forall fuel, (n < fuel)%nat ->
     get_week_range fuel start_week end_week
     = Some (Return (week_seq n ys ks))) /\
  hd_error (week_seq n ys ks) = Some start_week /\
  List.last (week_seq n ys ks) "" = end_week /\
  (0 < n)%nat.
Proof.
  intros Has Hae Hvs Hve Hls Hle Hfs Hfe Hys Hks Hke Hke0 Hmax Hord n.
  destruct (valid_week_canonical _ _ _ Has Hvs Hls Hfs Hys) as (Es & Hys' & _).
  destruct (le_valid8 _ _ _ _ _ _ Has Hvs Hls Hae Hve Hle Hfs Hfe)
    as (Hks0 & Hke1 & _ & Hye & Hcmp).
  rewrite Hord in Hcmp. symmetry in Hcmp. apply Z.leb_le in Hcmp.
  assert (Hye' : 1000 <= ye) by lia.
  destruct (valid_week_canonical _ _ _ Hae Hve Hle Hfe Hye') as (Ee & _ & _).
  assert (Hn : Z.of_nat n = 52 * (ye - ys) + (ke - ks) + 1).
  { unfold n, week_count. lia. }
  assert (Hpos : (0 < n)%nat) by lia.
  destruct n as [| m]; [lia |].
  split; [| split; [| split]].
  - intros fuel Hfuel. unfold get_week_range. rewrite Hvs, Hve.
    cbn [negb orb]. rewrite Es at 1.
    apply (week_range_loop_more_fuel end_week (S (S m))); [| lia].
    now rewrite (week_range_loop_spec_from_0 end_week ye ke Hae Hve Hle Hfe
                   Hke Hmax) by lia.
  - now rewrite week_seq_head, Es.
  - destruct (Z.eq_dec ke 0) as [Hz | Hnz].
    + specialize (Hke0 Hz). subst end_week. rewrite Hfs in Hfe.
      injection Hfe as Ey Ek.
      assert (m = 0%nat) as -> by lia.
      cbn [week_seq]. destruct (ks =? 52); symmetry; exact Es.
    + rewrite (week_seq_last ye ke) by lia. now rewrite Ee.
  - assumption.
Qed.

Lemma get_week_range_within_52_witness :
  le "2024-W51" "2025-W02" = true /\
  get_week_range 5 "2024-W51" "2025-W02"
  = Some (Return ["2024-W51"; "2024-W52"; "2025-W01"; "2025-W02"]).
Proof.
  split; [reflexivity |].
  destruct (get_week_range_within_52 "2024-W51" "2025-W02" 2024 51 2025 2
              eq_refl eq_refl eq_refl eq_refl eq_refl eq_refl eq_refl eq_refl
              ltac:(lia) ltac:(lia) ltac:(lia) ltac:(lia) ltac:(lia) eq_refl)
    as [H _].
  apply (H 5%nat). unfold week_count. lia.
Defined.

(** A range that starts at week 00. *)
Example get_week_range_from_week_00 :
  get_week_range 5 "2024-W00" "2024-W03"
  = Some (Return ["2024-W00"; "2024-W01"; "2024-W02"; "2024-W03"]).
Proof. reflexivity. Qed.

End WeekRange.

(* ===================================================================== *)
(** * Part IX. The authentication dependencies                            *)
(* ===================================================================== *)

Section HandlerFacts.

Lemma M_bind_unfold {A B} (m : M A) (f : A -> M B) db :
  (m ≫= f) db
  = match m db with
    | (db', Ok a) => f a db'
    | (db', Err e) => (db', Err e)
    end.
Proof. reflexivity. Qed.

(** The authentication dependencies read the database and never write. *)
Lemma get_current_user_from_db_ok token db cu :
  authenticated token db cu ->
  get_current_user_from_db token db = (db, Ok cu).
Proof.
  intros (Hv & Hid & Hu). unfold get_current_user_from_db.
  rewrite Hv. cbn [negb]. rewrite M_bind_unfold. cbn [get_db].
  rewrite <- Hid, Hu. now destruct cu.
Qed.

Lemma get_current_user_from_db_inv token db db' r :
  get_current_user_from_db token db = (db', r) ->
  db' = db /\
  match r with
  | Ok cu => authenticated token db cu
  | Err _ => True
  end.
Proof.
  unfold get_current_user_from_db, authenticated.
  destruct (Bson.is_valid (td_user_id token)) eqn:Hv; cbn [negb].
  - rewrite M_bind_unfold. cbn [get_db].
    destruct (users db !! Bson.of_str (td_user_id token)) eqn:Hu;
      intros [= <- <-]; auto.
  - intros [= <- <-]. auto.
Qed.

Lemma require_admin_ok token db cu :
  authenticated token db cu -> u_role cu.2 = "admin" ->
  require_admin token db = (db, Ok cu).
Proof.
  intros Ha Hr. unfold require_admin.
  rewrite M_bind_unfold, (get_current_user_from_db_ok _ _ _ Ha), Hr.
  reflexivity.
Qed.

Lemma require_admin_inv token db db' r :
  require_admin token db = (db', r) ->
  db' = db /\
  match r with
  | Ok cu => authenticated token db cu /\ u_role cu.2 = "admin"
  | Err _ => True
  end.
Proof.
  unfold require_admin. rewrite M_bind_unfold.
  destruct (get_current_user_from_db token db) as [db1 [cu | e]] eqn:E;
    apply get_current_user_from_db_inv in E as [-> Ha].
  - destruct (String.eqb_spec (u_role cu.2) "admin") as [Hr | Hr];
      cbn [negb]; intros [= <- <-]; auto.
  - intros [= <- <-]. auto.
Qed.

Lemma require_employee_ok token db cu :
  authenticated token db cu -> u_role cu.2 = "employee" ->
  require_employee token db = (db, Ok cu).
Proof.
  intros Ha Hr. unfold require_employee.
  rewrite M_bind_unfold, (get_current_user_from_db_ok _ _ _ Ha), Hr.
  reflexivity.
Qed.

Lemma require_employee_inv token db db' r :
  require_employee token db = (db', r) ->
  db' = db /\
  match r with
  | Ok cu => authenticated token db cu /\ u_role cu.2 = "employee"
  | Err _ => True
  end.
Proof.
  unfold require_employee. rewrite M_bind_unfold.
  destruct (get_current_user_from_db token db) as [db1 [cu | e]] eqn:E;
    apply get_current_user_from_db_inv in E as [-> Ha].
  - destruct (String.eqb_spec (u_role cu.2) "employee") as [Hr | Hr];
      cbn [negb]; intros [= <- <-]; auto.
  - intros [= <- <-]. auto.
Qed.

Lemma require_active_user_ok token db cu :
  authenticated token db cu -> is_active cu.2 = true ->
  require_active_user token db = (db, Ok cu).
Proof.
  intros Ha Hr. unfold require_active_user.
  rewrite M_bind_unfold, (get_current_user_from_db_ok _ _ _ Ha).
  fold (is_active cu.2). rewrite Hr. reflexivity.
Qed.

Lemma require_active_user_inv token db db' r :
  require_active_user token db = (db', r) ->
  db' = db /\
  match r with
  | Ok cu => authenticated token db cu /\ is_active cu.2 = true
  | Err _ => True
  end.
Proof.
  unfold require_active_user. rewrite M_bind_unfold.
  destruct (get_current_user_from_db token db) as [db1 [cu | e]] eqn:E;
    apply get_current_user_from_db_inv in E as [-> Ha].
  - fold (is_active cu.2). destruct (is_active cu.2) eqn:Hact;
      cbn [negb]; intros [= <- <-]; auto.
  - intros [= <- <-]. auto.
Qed.

End HandlerFacts.

(* ===================================================================== *)
(** * Part X. [delete_user]                                               *)
(* ===================================================================== *)

Section DeleteUser.

Lemma delete_many_count {A} (P : ObjectId * A -> Prop)
    `{!forall x, Decision (P x)} (c : gmap ObjectId A) :
  count_documents P (delete_many P c) = 0%nat.
Proof.
  unfold count_documents, delete_many.
  apply map_size_empty_iff, map_empty. intros k.
  apply map_lookup_filter_None. right. intros x Hk HP.
  apply map_lookup_filter_Some in Hk as [_ Hn]. now apply Hn.
Qed.

(** C10: an admin who calls [delete_user] on their own id gets an error and
    the database is left exactly as it was; when the admin is in the
    database the error is the refusal to delete one's own account. *)
Theorem delete_user_self user_id token db :
  Bson.is_valid user_id = true ->
  Bson.of_str user_id = Bson.of_str (td_user_id token) ->
  exists e,
    delete_user user_id token db = (db, Err e) /\
    (forall cu, authenticated token db cu -> u_role cu.2 = "admin" ->
                e = mk_HTTPException HTTP_400_BAD_REQUEST
                      "Impossible de supprimer votre propre compte").
Proof.
  intros Hv Hid. unfold delete_user. rewrite M_bind_unfold.
  destruct (require_admin token db) as [db1 [cu | e]] eqn:E.
  - apply require_admin_inv in E as [-> [(Hv' & Hcu & Hu) Hr]].
    rewrite Hv. cbn [negb]. rewrite M_bind_unfold. cbn [get_db].
    rewrite Hid, <- Hcu, Hu, String.eqb_refl.
    eexists. split; [reflexivity |]. reflexivity.
  - pose proof (require_admin_inv _ _ _ _ E) as [-> _].
    exists e. split; [reflexivity |].
    intros cu Ha Hr. apply (require_admin_ok _ _ _ Ha) in Hr. congruence.
Qed.

Lemma delete_user_self_witness :
  delete_user oid_admin (token_of oid_admin) sample_db
  = (sample_db,
     Err (mk_HTTPException 400 "Impossible de supprimer votre propre compte")).
Proof.
  destruct (delete_user_self oid_admin (token_of oid_admin) sample_db)
    as (e & -> & He); [reflexivity | reflexivity |].
  rewrite (He (oid_admin, sample_user "Awa" "admin" "active")); [reflexivity | |].
  - repeat split.
  - reflexivity.
Defined.

(** C8: after an admin has deleted another existing user [U], the
    database has no report owned by [U], no comment written by [U], no
    message sent by or to [U], and no user [U]. *)
Theorem delete_user_cascade user_id token db cu u :
  authenticated token db cu -> u_role cu.2 = "admin" ->
  Bson.is_valid user_id = true ->
  users db !! Bson.of_str user_id = Some u ->
  Bson.of_str user_id <> cu.1 ->
  exists db',
    delete_user user_id token db = (db', Ok "Utilisateur supprimé avec succès") /\
    count_documents (fun d => r_user_id d.2 = Bson.of_str user_id)
      (reports db') = 0%nat /\
    count_documents (fun d => c_admin_id d.2 = Bson.of_str user_id)
      (comments db') = 0%nat /\
    count_documents (fun d => m_sender_id d.2 = Bson.of_str user_id
                              \/ m_receiver_id d.2 = Bson.of_str user_id)
      (messages db') = 0%nat /\
    users db' !! Bson.of_str user_id = None.
Proof.
  intros Ha Hr Hv Hu Hne. unfold delete_user.
  rewrite M_bind_unfold, (require_admin_ok _ _ _ Ha Hr), Hv. cbn [negb].
  rewrite M_bind_unfold. cbn [get_db]. rewrite Hu.
  destruct (String.eqb_spec (Bson.of_str user_id) cu.1) as [| _]; [contradiction |].
  eexists. split; [reflexivity |]. cbn.
  repeat split; try apply delete_many_count. apply lookup_delete_eq.
Qed.

Lemma delete_user_cascade_witness :
  exists db',
    delete_user oid_emp1 (token_of oid_admin) sample_db
    = (db', Ok "Utilisateur supprimé avec succès") /\
    count_documents (fun d => r_user_id d.2 = oid_emp1) (reports db') = 0%nat /\
    users db' !! oid_emp1 = None.
Proof.
  destruct (delete_user_cascade oid_emp1 (token_of oid_admin) sample_db
              (oid_admin, sample_user "Awa" "admin" "active")
              (sample_user "Issa" "employee" "active"))
    as (db' & E & Hr & _ & _ & Hu); try reflexivity;
    [repeat split | discriminate |].
  exists db'. split; [exact E |]. split; [exact Hr | exact Hu].
Defined.

End DeleteUser.

(* ===================================================================== *)
(** * Part XI. The report handlers                                        *)
(* ===================================================================== *)

Section Reports.

Lemma find_one_Some {A} (P : ObjectId * A -> Prop)
    `{!forall x, Decision (P x)} (c : gmap ObjectId A) k v :
  c !! k = Some v -> P (k, v) -> is_Some (find_one P c).
Proof.
  intros Hk HP. unfold find_one.
  destruct (map_to_list (filter P c)) as [| d l] eqn:E; [| now eexists].
  apply map_to_list_empty_iff in E.
  assert (Hf : filter P c !! k = Some v) by now apply map_lookup_filter_Some.
  rewrite E, lookup_empty in Hf. discriminate.
Qed.

Lemma find_one_inv {A} (P : ObjectId * A -> Prop)
    `{!forall x, Decision (P x)} (c : gmap ObjectId A) d :
  find_one P c = Some d -> c !! d.1 = Some d.2 /\ P d.
Proof.
  unfold find_one. intros Hf.
  assert (Hin : d ∈ map_to_list (filter P c)).
  { destruct (map_to_list (filter P c)); [discriminate |].
    injection Hf as ->. left. }
  destruct d as [k v]. apply elem_of_map_to_list in Hin.
  now apply map_lookup_filter_Some in Hin.
Qed.

(** ** Reading a report *)

(** C3 (as stated) fails: an employee who asks for a colleague's report is
    refused with 403, not told that the report does not exist. *)
Lemma get_report_of_colleague_is_forbidden :
  (get_report oid_rep1 (token_of oid_emp2) sample_db).2
  = Err (mk_HTTPException 403 "Accès non autorisé à ce rapport") /\
  (get_report oid_rep1 (token_of oid_emp2) sample_db).2
  <> Err (mk_HTTPException 404 "Rapport non trouvé").
Proof. vm_compute. split; [reflexivity | discriminate]. Qed.

(** C3 (amended): an employee who reads by id an existing report of
    another user gets the authorization error 403; the database is not
    changed. *)
Theorem get_report_non_owner_forbidden report_id token db cu report :
  authenticated token db cu -> u_role cu.2 = "employee" ->
  Bson.is_valid report_id = true ->
  reports db !! Bson.of_str report_id = Some report ->
  r_user_id report <> cu.1 ->
  get_report report_id token db
  = (db, Err (mk_HTTPException HTTP_403_FORBIDDEN
                "Accès non autorisé à ce rapport")).
Proof.
  intros Ha Hr Hv Hrep Hne. unfold get_report.
  rewrite M_bind_unfold, (get_current_user_from_db_ok _ _ _ Ha), Hv.
  cbn [negb]. rewrite M_bind_unfold. cbn [get_db]. rewrite Hrep, Hr.
  destruct (String.eqb_spec (r_user_id report) cu.1); [contradiction |].
  reflexivity.
Qed.

Lemma get_report_non_owner_forbidden_witness :
  get_report oid_rep1 (token_of oid_emp2) sample_db
  = (sample_db, Err (mk_HTTPException 403 "Accès non autorisé à ce rapport")).
Proof.
  apply (get_report_non_owner_forbidden oid_rep1 (token_of oid_emp2) sample_db
           (oid_emp2, sample_user "Moussa" "employee" "active")
           (sample_report oid_emp1 "2024-W01" [3; 9 # 2]%Q));
    try reflexivity; [repeat split | discriminate].
Defined.

(** ** Creating a report *)

(** Whoever the caller is, a request for a week that the caller's id
    already has a report for writes nothing. *)
Lemma create_report_duplicate_never_writes report_data token now new_id db
    oid r :
  reports db !! oid = Some r ->
  is_report_of (Bson.of_str (td_user_id token)) (rc_week_iso report_data)
    (oid, r) ->
  (create_report report_data token now new_id db).1 = db.
Proof.
  intros Hrep Hof. unfold create_report. rewrite M_bind_unfold.
  destruct (require_active_user token db) as [db1 [cu | e]] eqn:E;
    apply require_active_user_inv in E as [-> Hcu]; [| reflexivity].
  destruct Hcu as [(_ & Hid & _) _].
  destruct (ReportBase_valid _ _ _ _); cbn [negb]; [| reflexivity].
  destruct (String.eqb _ _); cbn [negb]; [| reflexivity].
  rewrite M_bind_unfold. cbn [get_db]. rewrite <- Hid in Hof.
  destruct (find_one_Some (is_report_of cu.1 (rc_week_iso report_data))
              (reports db) oid r Hrep Hof) as [d Hd].
  unfold is_report_of in Hd. now rewrite Hd.
Qed.

(** C5: when the employee already has a report for the week, creating
    another one is refused with the duplicate-week error (status 400) and
    the database is left as it was, so the number of reports of that user
    for that week does not change. *)
Theorem create_report_duplicate report_data token now new_id db cu oid r :
  authenticated token db cu -> is_active cu.2 = true ->
  u_role cu.2 = "employee" ->
  ReportBase_valid (rc_week_iso report_data) (rc_tasks report_data)
    (rc_difficulties report_data) (rc_remarks report_data) = true ->
  reports db !! oid = Some r ->
  is_report_of cu.1 (rc_week_iso report_data) (oid, r) ->
  create_report report_data token now new_id db
  = (db, Err (mk_HTTPException HTTP_400_BAD_REQUEST
                ("Un rapport existe déjà pour la semaine "
                 ++ rc_week_iso report_data))) /\
  count_documents (is_report_of cu.1 (rc_week_iso report_data))
    (reports (create_report report_data token now new_id db).1)
  = count_documents (is_report_of cu.1 (rc_week_iso report_data)) (reports db).
Proof.
  intros Ha Hact Hr Hv Hrep Hof.
  assert (E : create_report report_data token now new_id db
              = (db, Err (mk_HTTPException HTTP_400_BAD_REQUEST
                            ("Un rapport existe déjà pour la semaine "
                             ++ rc_week_iso report_data)))).
  { unfold create_report.
    rewrite M_bind_unfold, (require_active_user_ok _ _ _ Ha Hact), Hv, Hr.
    rewrite String.eqb_refl. cbn [negb]. rewrite M_bind_unfold. cbn [get_db].
    destruct (find_one_Some (is_report_of cu.1 (rc_week_iso report_data))
                (reports db) oid r Hrep Hof) as [d Hd].
    unfold is_report_of in Hd. now rewrite Hd. }
  now rewrite E.
Qed.

Lemma create_report_duplicate_witness :
  create_report (mk_ReportCreate "2024-W01" [sample_task 1] None None)
    (token_of oid_emp1) 7 oid_rep3 sample_db
  = (sample_db,
     Err (mk_HTTPException 400 "Un rapport existe déjà pour la semaine 2024-W01")).
Proof.
  apply (create_report_duplicate
           (mk_ReportCreate "2024-W01" [sample_task 1] None None)
           (token_of oid_emp1) 7 oid_rep3 sample_db
           (oid_emp1, sample_user "Issa" "employee" "active")
           oid_rep1 (sample_report oid_emp1 "2024-W01" [3; 9 # 2]%Q));
    try reflexivity; repeat split.
Defined.

(** ** [total_hours] *)

Lemma ReportResponse_of_inv oid r name resp :
  ReportResponse_of oid r name = Some resp ->
  rr_id resp = oid /\ r_week_iso r = Some (rr_week_iso resp) /\
  r_tasks r = Some (rr_tasks resp) /\
  r_total_hours r = Some (rr_total_hours resp).
Proof.
  unfold ReportResponse_of.
  destruct (r_week_iso r), (r_tasks r), (r_difficulties r), (r_remarks r),
    (r_total_hours r); cbn; try discriminate.
  destruct (ReportBase_valid _ _ _ _); [| discriminate].
  intros [= <-]. cbn. auto.
Qed.

(** What a successful [update_report] has done. *)
Lemma update_report_inv report_id report_update token now db db' resp :
  update_report report_id report_update token now db = (db', Ok resp) ->
  exists (cu : current_user_t) r,
    reports db !! Bson.of_str report_id = Some r /\
    db' = mk_Database (users db)
            (alter (apply_report_update report_update now)
               (Bson.of_str report_id) (reports db))
            (comments db) (messages db) /\
    ReportResponse_of (Bson.of_str report_id)
      (apply_report_update report_update now r) (u_name cu.2)
    = Some resp.
Proof.
  unfold update_report. rewrite M_bind_unfold.
  destruct (require_employee token db) as [db1 [cu | e]] eqn:E;
    [| discriminate].
  apply require_employee_inv in E as [-> _].
  destruct (ReportUpdate_valid _); cbn [negb]; [| discriminate].
  destruct (Bson.is_valid _); cbn [negb]; [| discriminate].
  rewrite M_bind_unfold. cbn [get_db].
  destruct (reports db !! Bson.of_str report_id) as [r |] eqn:Hr;
    [| discriminate].
  destruct (String.eqb _ _); [| discriminate].
  rewrite M_bind_unfold. cbn [set_reports]. rewrite M_bind_unfold.
  cbn [get_db reports]. rewrite lookup_alter_eq, Hr. cbn [fmap option_fmap option_map mbind option_bind].
  destruct (ReportResponse_of _ _ _) as [resp' |] eqn:Hresp; [| discriminate].
  intros [= <- <-]. exists cu, r. auto.
Qed.

Lemma apply_report_update_consistent report_update now r :
  report_consistent r ->
  report_consistent (apply_report_update report_update now r).
Proof.
  unfold report_consistent, apply_report_update. cbn.
  destruct (ru_tasks report_update); [| auto]. now intros _ tasks [= <-].
Qed.

(** [update_report] changes at most the report it names. *)
Lemma update_report_store report_id report_update token now db :
  (update_report report_id report_update token now db).1 = db \/
  (update_report report_id report_update token now db).1
  = mk_Database (users db)
      (alter (apply_report_update report_update now) (Bson.of_str report_id)
         (reports db))
      (comments db) (messages db).
Proof.
  unfold update_report. rewrite M_bind_unfold.
  destruct (require_employee token db) as [db1 [cu | e]] eqn:E;
    apply require_employee_inv in E as [-> _]; [| now left].
  destruct (ReportUpdate_valid _); cbn [negb]; [| now left].
  destruct (Bson.is_valid _); cbn [negb]; [| now left].
  rewrite M_bind_unfold. cbn [get_db].
  destruct (reports db !! Bson.of_str report_id) as [r |]; [| now left].
  destruct (String.eqb _ _); [| now left].
  rewrite M_bind_unfold. cbn [set_reports]. rewrite M_bind_unfold.
  cbn [get_db]. right. now destruct (_ ≫= _).
Qed.

(** Whatever the request and its outcome, [update_report] keeps the
    stored totals equal to the sums of the stored hours. *)
Lemma update_report_preserves_consistency report_id report_update token now db :
  store_consistent db ->
  store_consistent (update_report report_id report_update token now db).1.
Proof.
  intros Hcons.
  destruct (update_report_store report_id report_update token now db)
    as [-> | ->]; [assumption |].
  unfold store_consistent. cbn [reports]. intros k x Hk.
  destruct (decide (k = Bson.of_str report_id)) as [-> | Hne].
  - rewrite lookup_alter_eq in Hk.
    destruct (reports db !! Bson.of_str report_id) as [r |] eqn:Hr;
      [| discriminate].
    injection Hk as <-. apply apply_report_update_consistent.
    exact (Hcons _ _ Hr).
  - rewrite lookup_alter_ne in Hk by congruence. exact (Hcons _ _ Hk).
Qed.

(** With a replacement task list, [update_report] stores the list
    together with the sum of its hours, whatever the report held before;
    without one it leaves both as they were. *)
Lemma update_report_recomputes_total_hours report_id report_update token now
    db cu r :
  authenticated token db cu -> u_role cu.2 = "employee" ->
  ReportUpdate_valid report_update = true ->
  Bson.is_valid report_id = true ->
  reports db !! Bson.of_str report_id = Some r -> r_user_id r = cu.1 ->
  exists r',
    reports (update_report report_id report_update token now db).1
      !! Bson.of_str report_id = Some r' /\
    match ru_tasks report_update with
    | Some tasks =>
        r_tasks r' = Some tasks /\ r_total_hours r' = Some (sum_hours tasks)
    | None => r_tasks r' = r_tasks r /\ r_total_hours r' = r_total_hours r
    end /\
    forall db' resp,
      update_report report_id report_update token now db = (db', Ok resp) ->
      r_tasks r' = Some (rr_tasks resp) /\
      r_total_hours r' = Some (rr_total_hours resp).
Proof.
  intros Ha Hr Hv Hid Hrep Hown.
  exists (apply_report_update report_update now r).
  assert (Hstore : reports (update_report report_id report_update token now db).1
                     !! Bson.of_str report_id
                   = Some (apply_report_update report_update now r)).
  { unfold update_report.
    rewrite M_bind_unfold, (require_employee_ok _ _ _ Ha Hr), Hv, Hid.
    cbn [negb]. rewrite M_bind_unfold. cbn [get_db].
    rewrite Hrep, Hown, String.eqb_refl.
    rewrite M_bind_unfold. cbn [set_reports]. rewrite M_bind_unfold.
    cbn [get_db reports]. rewrite lookup_alter_eq, Hrep.
    cbn [fmap option_fmap option_map mbind option_bind].
    destruct (ReportResponse_of _ _ _); unfold mret, M_ret, raise;
      cbn [fst reports]; now rewrite lookup_alter_eq, Hrep. }
  split; [exact Hstore |]. split.
  - unfold apply_report_update. cbn [r_tasks r_total_hours].
    destruct (ru_tasks report_update); auto.
  - intros db' resp Hrun.
    destruct (update_report_inv _ _ _ _ _ _ _ Hrun) as (cu' & r0 & Hr0 & _ & Hresp).
    rewrite Hrep in Hr0. injection Hr0 as <-.
    destruct (ReportResponse_of_inv _ _ _ _ Hresp) as (_ & _ & Ht & Hh). auto.
Qed.

(** The example of the specification: a report with tasks of 3 and 4.5
    hours (7.5 in total) whose tasks are replaced by one task of 1 hour
    has a total of 1 hour, not 8.5. *)
Example update_report_replaces_total_hours :
  (r_total_hours <$> reports sample_db !! oid_rep1)
  = Some (Some (PyFloat.of_Q (15 # 2))) /\
  match (update_report oid_rep1
           (mk_ReportUpdate (Some [sample_task 1]) None None)
           (token_of oid_emp1) 8 sample_db).2 with
  | Ok resp =>
      rr_tasks resp = [sample_task 1] /\ rr_total_hours resp = PyFloat.of_Q 1
  | Err _ => False
  end.
Proof. vm_compute. repeat split. Qed.

(** Summing floats is not summing fractions: 0.1 + 0.2 + 0.3. *)
Example sum_hours_rounds :
  sum_hours [sample_task (1 # 10); sample_task (2 # 10); sample_task (3 # 10)]
  <> PyFloat.of_Q (6 # 10).
Proof. vm_compute. discriminate. Qed.


(** [create_report] never stores anything and never answers with a report:
    every path ends in an error, the last one at the construction of
    [ReportInDB]. *)
Lemma create_report_never_succeeds report_data token now new_id db :
  exists e, create_report report_data token now new_id db = (db, Err e).
Proof.
  unfold create_report. rewrite M_bind_unfold.
  destruct (require_active_user token db) as [db1 [cu | e]] eqn:E;
    apply require_active_user_inv in E as [-> _]; [| eauto].
  destruct (ReportBase_valid _ _ _ _); cbn [negb]; [| eauto].
  destruct (String.eqb _ _); cbn [negb]; [| eauto].
  rewrite M_bind_unfold. cbn [get_db].
  destruct (find_one _ _); eauto.
Qed.



End Reports.

(* ===================================================================== *)
(** * Part XII. The message handlers                                      *)
(* ===================================================================== *)

Section Messages.

(** ** Marking a message as read *)

(** What [mark_message_as_read] does for the receiver of a message:
    whatever the message held, [read_at] becomes the current time. *)
Lemma mark_message_as_read_receiver message_id token now db cu m :
  authenticated token db cu -> u_role cu.2 = "employee" ->
  Bson.is_valid message_id = true ->
  messages db !! Bson.of_str message_id = Some m ->
  m_receiver_id m = cu.1 ->
  exists db',
    mark_message_as_read message_id token now db
    = (db', Ok "Message marqué comme lu") /\
    messages db' !! Bson.of_str message_id = Some (mark_read now m).
Proof.
  intros Ha Hr Hv Hm Hrcv. unfold mark_message_as_read.
  rewrite M_bind_unfold, (require_employee_ok _ _ _ Ha Hr), Hv.
  cbn [negb]. rewrite M_bind_unfold. cbn [get_db].
  rewrite Hm, Hrcv, String.eqb_refl.
  eexists. split; [reflexivity |]. cbn [messages].
  now rewrite lookup_alter_eq, Hm.
Qed.

(** [get_message], the other path that marks messages, leaves a message
    that is already read alone. *)
Lemma get_message_already_read message_id token now now' db m :
  messages db !! Bson.of_str message_id = Some m ->
  m_read_status m = true ->
  (get_message message_id token now now' db).1 = db.
Proof.
  intros Hm Hread. unfold get_message. rewrite M_bind_unfold.
  destruct (get_current_user_from_db token db) as [db1 [cu | e]] eqn:E;
    apply get_current_user_from_db_inv in E as [-> _]; [| reflexivity].
  destruct (Bson.is_valid message_id); cbn [negb]; [| reflexivity].
  rewrite M_bind_unfold. cbn [get_db]. rewrite Hm, Hread.
  rewrite andb_false_r. now destruct (_ && _).
Qed.

(** The receiver marks message [oid_msg1] as read at time 100 and again at
    time 200: the second call replaces the [read_at] set by the first. *)
Example mark_message_as_read_twice :
  let db1 :=
    (mark_message_as_read oid_msg1 (token_of oid_emp1) 100 sample_db).1 in
  let db2 := (mark_message_as_read oid_msg1 (token_of oid_emp1) 200 db1).1 in
  db1 = sample_read_db /\
  (m_read_at <$> messages db1 !! oid_msg1) = Some (Some 100) /\
  (m_read_at <$> messages db2 !! oid_msg1) = Some (Some 200).
Proof. vm_compute. repeat split. Qed.

(** C2: what the code does where the claim expects a no-op.  When the
    receiving employee marks as read a message that is already read, with
    [read_at] set to [t1], the call succeeds and [read_at] becomes the
    time [now] of this call: the value set by the first call is lost. *)
Theorem mark_message_as_read_overwrites_read_at message_id token now db cu m t1 :
  authenticated token db cu -> u_role cu.2 = "employee" ->
  Bson.is_valid message_id = true ->
  messages db !! Bson.of_str message_id = Some m ->
  m_receiver_id m = cu.1 ->
  m_read_status m = true -> m_read_at m = Some t1 ->
  exists db',
    mark_message_as_read message_id token now db
    = (db', Ok "Message marqué comme lu") /\
    (m_read_status <$> messages db' !! Bson.of_str message_id) = Some true /\
    (m_read_at <$> messages db' !! Bson.of_str message_id) = Some (Some now).
Proof.
  intros Ha Hr Hv Hm Hrcv _ _.
  destruct (mark_message_as_read_receiver message_id token now db cu m
              Ha Hr Hv Hm Hrcv) as (db' & Hrun & Hm').
  exists db'. split; [exact Hrun |]. now rewrite Hm'.
Qed.

Lemma mark_message_as_read_overwrites_read_at_witness :
  (m_read_at <$> messages sample_read_db !! oid_msg1) = Some (Some 100) /\
  exists db',
    mark_message_as_read oid_msg1 (token_of oid_emp1) 200 sample_read_db
    = (db', Ok "Message marqué comme lu") /\
    (m_read_at <$> messages db' !! oid_msg1) = Some (Some 200).
Proof.
  split; [reflexivity |].
  destruct (mark_message_as_read_overwrites_read_at oid_msg1
              (token_of oid_emp1) 200 sample_read_db
              (oid_emp1, sample_user "Issa" "employee" "active")
              (mark_read 100 (sample_message oid_emp1)) 100)
    as (db' & Hrun & _ & Hat); try reflexivity; [repeat split |].
  exists db'. split; [exact Hrun | exact Hat].
Defined.

(** ** Broadcasting *)

Lemma size_list_to_set_le (l : list ObjectId) :
  (size (list_to_set (C := gset ObjectId) l) <= length l)%nat.
Proof.
  induction l as [| x l IH]; cbn [list_to_set length].
  - now rewrite size_empty.
  - rewrite size_union_alt, size_singleton.
    assert (Hsub : list_to_set (C := gset ObjectId) l ∖ {[x]} ⊆ list_to_set l).
    { intros y Hy. now apply elem_of_difference in Hy as [Hy _]. }
    apply subseteq_size in Hsub. lia.
Qed.

Lemma size_list_to_set_NoDup (l : list ObjectId) :
  size (list_to_set (C := gset ObjectId) l) = length l -> NoDup l.
Proof.
  induction l as [| x l IH]; cbn [list_to_set length]; [constructor |].
  intros Hsize. pose proof (size_list_to_set_le l) as Hle.
  destruct (decide (x ∈ l)) as [Hin | Hnotin].
  - assert (E : {[x]} ∪ list_to_set (C := gset ObjectId) l = list_to_set l).
    { apply set_eq. intros y. rewrite elem_of_union, elem_of_singleton.
      rewrite elem_of_list_to_set. split; [intros [-> | ?]; assumption | auto]. }
    rewrite E in Hsize. lia.
  - rewrite size_union, size_singleton in Hsize.
    + constructor; [assumption | apply IH; lia].
    + intros y Hy%elem_of_singleton Hy'%elem_of_list_to_set. now subst.
Qed.

Section Receivers.
Context (db : Database) (ids : list string).

Local Abbreviation oids := (Bson.of_str <$> ids).
Local Abbreviation P :=
  (fun d : ObjectId * User => d.1 ∈ oids /\ is_active_employee d).
Local Abbreviation receivers := (find P (users db)).

Lemma receivers_elem k u :
  (k, u) ∈ receivers <-> users db !! k = Some u /\ P (k, u).
Proof.
  unfold receivers, find. rewrite elem_of_map_to_list.
  apply map_lookup_filter_Some.
Qed.

Lemma receivers_NoDup : NoDup receivers.*1.
Proof. apply NoDup_fst_map_to_list. Qed.

Lemma receivers_length :
  length receivers = size (dom (filter P (users db))).
Proof. unfold receivers, find. now rewrite length_map_to_list, size_dom. Qed.

Lemma receivers_dom_subseteq :
  dom (filter P (users db)) ⊆ list_to_set (C := gset ObjectId) oids.
Proof.
  intros k [u Hu]%elem_of_dom. apply map_lookup_filter_Some in Hu as [_ [Hk _]].
  now apply elem_of_list_to_set.
Qed.

(** If every id resolves and no id is repeated, the query finds as many
    receivers as there are ids. *)
Lemma receivers_all_resolve :
  (forall rid, rid ∈ ids -> resolves db rid) -> NoDup oids ->
  length receivers = length ids.
Proof.
  intros Hres Hnd. rewrite receivers_length.
  assert (E : dom (filter P (users db)) = list_to_set (C := gset ObjectId) oids).
  { apply set_eq. intros k. split; [apply receivers_dom_subseteq |].
    intros Hk%elem_of_list_to_set. pose proof Hk as Hk'.
    apply list_elem_of_fmap in Hk as (rid & -> & Hrid).
    destruct (Hres rid Hrid) as (_ & u & Hu & Hact).
    apply elem_of_dom. exists u. now apply map_lookup_filter_Some. }
  rewrite E, size_list_to_set by assumption. unfold oids. apply length_fmap.
Qed.

(** If a valid id does not resolve, the query finds fewer receivers than
    there are ids. *)
Lemma receivers_one_unresolved rid :
  rid ∈ ids -> Bson.is_valid rid = true -> ~ resolves db rid ->
  (length receivers < length ids)%nat.
Proof.
  intros Hrid Hv Hnot. rewrite receivers_length.
  assert (Hin : Bson.of_str rid ∈ list_to_set (C := gset ObjectId) oids).
  { apply elem_of_list_to_set, list_elem_of_fmap. eauto. }
  assert (Hout : Bson.of_str rid ∉ dom (filter P (users db))).
  { intros [u Hu]%elem_of_dom.
    apply map_lookup_filter_Some in Hu as [Hu [_ Hact]].
    apply Hnot. split; [assumption |]. eauto. }
  eapply Nat.lt_le_trans;
    [apply subset_size | etransitivity; [apply size_list_to_set_le |]].
  - split; [apply receivers_dom_subseteq |]. intros Hsub. apply Hout, Hsub, Hin.
  - unfold oids. now rewrite length_fmap.
Qed.

(** If an id is named twice, the query finds fewer receivers than there
    are ids: it returns each user once. *)
Lemma receivers_repeated :
  ~ NoDup oids -> (length receivers < length ids)%nat.
Proof.
  intros Hdup. rewrite receivers_length.
  pose proof (subseteq_size _ _ receivers_dom_subseteq) as Hle.
  pose proof (size_list_to_set_le oids) as Hle'.
  assert (Hne : size (list_to_set (C := gset ObjectId) oids) <> length oids).
  { intros E. apply Hdup. now apply size_list_to_set_NoDup. }
  rewrite length_fmap in Hle', Hne. lia.
Qed.

End Receivers.

Lemma first_invalid_id_None ids rid :
  first_invalid_id ids = None -> rid ∈ ids -> Bson.is_valid rid = true.
Proof.
  unfold first_invalid_id. intros Hnone Hrid.
  apply list_elem_of_In in Hrid.
  pose proof (find_none _ _ Hnone rid Hrid) as H. cbn in H.
  now destruct (Bson.is_valid rid).
Qed.

Lemma first_invalid_id_all_valid ids :
  (forall rid, rid ∈ ids -> Bson.is_valid rid = true) ->
  first_invalid_id ids = None.
Proof.
  intros Hall. unfold first_invalid_id.
  destruct (List.find _ ids) as [x |] eqn:E; [| reflexivity].
  apply find_some in E as [Hin Hx]. apply list_elem_of_In in Hin.
  rewrite (Hall x Hin) in Hx. discriminate.
Qed.

(** C7 (as stated) fails: a list that names the same active employee twice
    resolves entirely, and yet the broadcast is refused and no message is
    created. *)
Lemma broadcast_repeated_receiver_rejected :
  resolves sample_db oid_emp1 /\
  broadcast_message (mk_MessageBroadcast "bonjour" None [oid_emp1; oid_emp1])
    (token_of oid_admin) 7 (fun i => PyStr.str (Z.of_nat i)) sample_db
  = (sample_db,
     Err (mk_HTTPException 400
            "Certains destinataires sont invalides ou inactifs")).
Proof.
  split.
  - split; [reflexivity |]. eexists. split; [reflexivity |]. now split.
  - vm_compute. reflexivity.
Qed.

(** C7 (amended): if some receiver id does not resolve to an active
    employee, or a receiver is named twice, the broadcast is refused and
    the database is left as it was: no message is created.  For an
    administrator who sends a well-formed request with valid ids the
    refusal is the error 400. *)
Theorem broadcast_rejected_unchanged message_data token now new_id db :
  (exists rid, rid ∈ mb_receiver_ids message_data /\ ~ resolves db rid)
  \/ ~ NoDup (Bson.of_str <$> mb_receiver_ids message_data) ->
  (exists e, broadcast_message message_data token now new_id db = (db, Err e))
  /\
  (forall cu,
     authenticated token db cu -> u_role cu.2 = "admin" ->
     MessageBroadcast_valid message_data = true ->
     (forall rid, rid ∈ mb_receiver_ids message_data ->
                  Bson.is_valid rid = true) ->
     broadcast_message message_data token now new_id db
     = (db, Err (mk_HTTPException HTTP_400_BAD_REQUEST
                   "Certains destinataires sont invalides ou inactifs"))).
Proof.
  intros Hbad.
  assert (Hlt : first_invalid_id (mb_receiver_ids message_data) = None ->
                Nat.eqb
                  (length (find (fun d => d.1 ∈ Bson.of_str
                                            <$> mb_receiver_ids message_data
                                          /\ is_active_employee d) (users db)))
                  (length (mb_receiver_ids message_data)) = false).
  { intros Hinv. apply Nat.eqb_neq.
    destruct Hbad as [(rid & Hrid & Hnot) | Hdup].
    - pose proof (receivers_one_unresolved db _ rid Hrid
                    (first_invalid_id_None _ _ Hinv Hrid) Hnot). lia.
    - pose proof (receivers_repeated db _ Hdup). lia. }
  split.
  - unfold broadcast_message. rewrite M_bind_unfold.
    destruct (require_admin token db) as [db1 [cu | e]] eqn:E;
      apply require_admin_inv in E as [-> _]; [| eauto].
    destruct (MessageBroadcast_valid message_data); cbn [negb]; [| eauto].
    destruct (first_invalid_id _) as [bad |] eqn:Hinv; [eauto |].
    rewrite M_bind_unfold. cbn [get_db].
    rewrite (Hlt eq_refl). cbn [negb]. eauto.
  - intros cu Ha Hr Hvalid Hids. unfold broadcast_message.
    rewrite M_bind_unfold, (require_admin_ok _ _ _ Ha Hr), Hvalid. cbn [negb].
    pose proof (first_invalid_id_all_valid _ Hids) as Hinv. rewrite Hinv.
    rewrite M_bind_unfold. cbn [get_db].
    now rewrite (Hlt Hinv).
Qed.

Lemma broadcast_rejected_unchanged_witness :
  broadcast_message (mk_MessageBroadcast "bonjour" None [oid_emp1; oid_emp3])
    (token_of oid_admin) 7 sample_new_id sample_db
  = (sample_db,
     Err (mk_HTTPException 400
            "Certains destinataires sont invalides ou inactifs")).
Proof.
  assert (Hbad : (exists rid, rid ∈ [oid_emp1; oid_emp3]
                              /\ ~ resolves sample_db rid)
                 \/ ~ NoDup (Bson.of_str <$> [oid_emp1; oid_emp3])).
  { left. exists oid_emp3. split; [set_solver |].
    intros (_ & u & Hu & _ & Hact).
    assert (E : u = sample_user "Salif" "employee" "inactive")
      by (vm_compute in Hu; now injection Hu).
    subst u. discriminate. }
  destruct (broadcast_rejected_unchanged
              (mk_MessageBroadcast "bonjour" None [oid_emp1; oid_emp3])
              (token_of oid_admin) 7 sample_new_id sample_db Hbad) as [_ H].
  apply (H (oid_admin, sample_user "Awa" "admin" "active")).
  - repeat split.
  - reflexivity.
  - reflexivity.
  - intros rid Hrid.
    apply elem_of_cons in Hrid as [-> | Hrid];
      [| apply elem_of_cons in Hrid as [-> | Hrid];
         [| now apply elem_of_nil in Hrid]]; reflexivity.
Defined.

(** When every id resolves and no receiver is named twice, the handler
    goes on to build the messages and stops at the first [MessageInDB]:
    the answer is the error 500 and nothing is inserted. *)
Lemma broadcast_message_resolved_fails message_data token now new_id db cu :
  authenticated token db cu -> u_role cu.2 = "admin" ->
  MessageBroadcast_valid message_data = true ->
  (forall rid, rid ∈ mb_receiver_ids message_data -> resolves db rid) ->
  NoDup (Bson.of_str <$> mb_receiver_ids message_data) ->
  broadcast_message message_data token now new_id db
  = (db, Err (mk_HTTPException HTTP_500_INTERNAL_SERVER_ERROR
                "Erreur lors de l'envoi du message groupé")).
Proof.
  intros Ha Hr Hvalid Hres Hnd. unfold broadcast_message.
  rewrite M_bind_unfold, (require_admin_ok _ _ _ Ha Hr), Hvalid. cbn [negb].
  rewrite first_invalid_id_all_valid by (intros rid Hrid; apply (Hres rid Hrid)).
  rewrite M_bind_unfold. cbn [get_db].
  pose proof (receivers_all_resolve db _ Hres Hnd) as Hlen.
  rewrite Hlen, Nat.eqb_refl. cbn [negb].
  destruct (find _ (users db)) as [| receiver receivers]; [| reflexivity].
  unfold MessageBroadcast_valid in Hvalid. rewrite <- Hlen in Hvalid.
  cbn in Hvalid. now rewrite andb_false_r in Hvalid.
Qed.

Example broadcast_message_sample_fails :
  resolves sample_db oid_emp1 /\ resolves sample_db oid_emp2 /\
  broadcast_message (mk_MessageBroadcast "bonjour" None [oid_emp1; oid_emp2])
    (token_of oid_admin) 7 sample_new_id sample_db
  = (sample_db,
     Err (mk_HTTPException 500 "Erreur lors de l'envoi du message groupé")).
Proof.
  split; [| split].
  - split; [reflexivity |]. eexists. split; [reflexivity |]. now split.
  - split; [reflexivity |]. eexists. split; [reflexivity |]. now split.
  - vm_compute. reflexivity.
Qed.

End Messages.

(* ===================================================================== *)
(** * Part XIII. Weekly statistics                                        *)
(* ===================================================================== *)

Section WeeklyStatistics.

Variable server_sum : list float -> float.

(** The accumulators after a run of documents. *)
Lemma group_add_foldl (l : list (ObjectId * Report)) (g0 : Group) :
  let g := foldl (fun g d => group_add d.2 g) g0 l in
  g_total_reports g = g_total_reports g0 + Z.of_nat (length l) /\
  g_hours g = (g_hours g0 ++ hours_of l)%list /\
  g_employees g = owners_of l ∪ g_employees g0.
Proof.
  revert g0. induction l as [| d l IH]; intros g0; cbn zeta.
  - cbn. unfold owners_of. cbn. rewrite app_nil_r. repeat split; [lia |].
    now rewrite (left_id_L ∅ (∪)).
  - cbn [foldl]. destruct (IH (group_add d.2 g0)) as (H1 & H2 & H3).
    cbn zeta in H1, H2, H3. rewrite H1, H2, H3.
    cbn [group_add g_total_reports g_hours g_employees length].
    split; [lia |]. split.
    + unfold hours_of. cbn [mbind list_bind]. now rewrite <- app_assoc.
    + unfold owners_of. cbn [fmap list_fmap list_to_set].
      apply set_eq. intros y. rewrite !elem_of_union. tauto.
Qed.

(** [$group]: the bucket of key [k] accumulates the documents whose
    [week_iso] is [k], in order, and exists only if there is one. *)
Lemma group_stage_lookup (docs : list (ObjectId * Report)) k :
  group_stage docs !! k
  = match filter (fun d => r_week_iso d.2 = k) docs with
    | [] => None
    | dk => Some (foldl (fun g d => group_add d.2 g) empty_group dk)
    end.
Proof.
  unfold group_stage. induction docs as [| d docs IH] using rev_ind.
  - cbn. apply lookup_empty.
  - rewrite foldl_snoc, filter_app. cbn zeta.
    destruct (decide (r_week_iso d.2 = k)) as [E | E].
    + rewrite E, lookup_insert_eq, IH.
      rewrite filter_cons_True, filter_nil by assumption.
      destruct (filter _ docs) as [| d' dk]; cbn [default].
      * reflexivity.
      * cbn [app]. change (d' :: dk ++ [d])%list with ((d' :: dk) ++ [d])%list.
        now rewrite foldl_snoc.
    + rewrite lookup_insert_ne, IH by assumption.
      rewrite filter_cons_False, filter_nil, app_nil_r by assumption.
      reflexivity.
Qed.

Lemma Forall2_elem_of_r {A B} (R : A -> B -> Prop) l k y :
  Forall2 R l k -> y ∈ k -> exists x, x ∈ l /\ R x y.
Proof.
  induction 1 as [| x y' l k HR _ IH]; intros Hy.
  - now apply elem_of_nil in Hy.
  - apply elem_of_cons in Hy as [-> | Hy].
    + exists x. split; [left | assumption].
    + destruct (IH Hy) as (x' & Hx' & HR'). exists x'. split; [now right | assumption].
Qed.

(** What a successful [get_weekly_stats] has computed. *)
Lemma get_weekly_stats_inv start_week end_week token db db' stats :
  get_weekly_stats server_sum start_week end_week token db = (db', Ok stats) ->
  exists matches,
    week_filters start_week end_week = Ok matches /\ db' = db /\
    mapM WeeklyStats_of (weekly_pipeline server_sum matches (reports db))
    = Some stats.
Proof.
  unfold get_weekly_stats. rewrite M_bind_unfold.
  destruct (require_admin token db) as [db1 [cu | e]] eqn:E; [| discriminate].
  apply require_admin_inv in E as [-> _].
  rewrite M_bind_unfold.
  cbv beta.
  destruct (week_filters start_week end_week) as [matches | e] eqn:Hf;
    [| discriminate].
  rewrite M_bind_unfold. cbn [get_db].
  destruct (mapM _ _) as [ws |] eqn:Hm; [| discriminate].
  intros [= <- <-]. exists matches. auto.
Qed.

(** C9 (amended): in every week group of the weekly statistics,
    [total_hours] is the server's sum over the reports of the week, the
    number of employees is the number of distinct owners, which is
    positive, and [average_hours_per_employee] is [round(q, 2)] for the
    quotient [q] of the two as floats; a bucket without owner would get
    the average 0, without any division. *)
Theorem weekly_average_rounded start_week end_week token db db' stats :
  get_weekly_stats server_sum start_week end_week token db = (db', Ok stats) ->
  (exists matches,
     week_filters start_week end_week = Ok matches /\
     forall st, st ∈ stats ->
       let docs := week_docs matches (reports db) (Some (ws_week_iso st)) in
       docs <> [] /\
       ws_total_reports st = Z.of_nat (length docs) /\
       ws_total_hours st = server_sum (hours_of docs) /\
       ws_employees_reported st = Z.of_nat (size (owners_of docs)) /\
       0 < ws_employees_reported st /\
       ws_average_hours_per_employee st
       = PyFloat.round2
           (PrimFloat.div (ws_total_hours st)
              (PyFloat.of_Z (ws_employees_reported st))))
  /\
  (forall k g,
     size (g_employees g) = 0%nat ->
     sd_average_hours_per_employee (project_stage server_sum (k, g))
     = PyFloat.zero).
Proof.
  intros Hrun. split.
  - destruct (get_weekly_stats_inv _ _ _ _ _ _ Hrun) as (matches & Hf & -> & Hmap).
    exists matches. split; [assumption |]. intros st Hst.
    apply mapM_Some in Hmap.
    destruct (Forall2_elem_of_r _ _ _ _ Hmap Hst) as (sd & Hsd & Hof).
    unfold weekly_pipeline, sort_stage in Hsd.
    rewrite merge_sort_Permutation in Hsd.
    apply list_elem_of_fmap in Hsd as ([k g] & -> & Hkg).
    apply elem_of_map_to_list in Hkg. rewrite group_stage_lookup in Hkg.
    unfold WeeklyStats_of in Hof. cbn [project_stage sd_week_iso fst snd] in Hof.
    destruct k as [w |]; [| discriminate]. cbn in Hof. injection Hof as <-.
    cbn [ws_week_iso ws_total_reports ws_total_hours ws_employees_reported
         ws_average_hours_per_employee].
    unfold week_docs.
    set (docs := filter (fun d => r_week_iso d.2 = Some w)
                   (find (fun d => Is_true (matches d.2)) (reports db))) in *.
    destruct docs as [| d0 docs'] eqn:Edocs; [discriminate |].
    rewrite <- Edocs in *. injection Hkg as <-.
    destruct (group_add_foldl docs empty_group) as (H1 & H2 & H3).
    cbn zeta in H1, H2, H3.
    cbn [empty_group g_total_reports g_hours g_employees app] in H1, H2, H3.
    rewrite (right_id_L ∅ (∪)) in H3.
    assert (Hpos : (0 < size (owners_of docs))%nat).
    { rewrite Edocs. unfold owners_of. cbn [fmap list_fmap list_to_set].
      rewrite size_union_alt, size_singleton. lia. }
    split; [rewrite Edocs; discriminate |].
    rewrite H1, H2, H3.
    repeat split; try lia.
    destruct (Z.gtb_spec (Z.of_nat (size (owners_of docs))) 0); [reflexivity | lia].
  - intros k g Hg. unfold project_stage. cbn [snd fst sd_average_hours_per_employee].
    now rewrite Hg.
Qed.

End WeeklyStatistics.

(** C9 (as stated) fails: 10 hours over 3 employees are reported as 3.33,
    which is not 10/3.  (Every way of adding 3, 3 and 4 gives 10.) *)
Lemma weekly_average_is_rounded :
  (get_weekly_stats sum_left None None (token_of oid_admin) stats_db).2
  = Ok [mk_WeeklyStats "2024-W01" 3 (PyFloat.of_Z 10) 3
          (PyFloat.of_Q (333 # 100))] /\
  PyFloat.of_Q (333 # 100)
  <> PrimFloat.div (PyFloat.of_Z 10) (PyFloat.of_Z 3).
Proof. split; [vm_compute; reflexivity | vm_compute; discriminate]. Qed.

(** The quotient is a float and it is that float which is rounded: 0.125
    hours over 5 employees are reported as 0.03, as the float nearest to
    0.025 lies just above it; the fraction 1/40 itself is a tie, which
    would go to 0.02. *)
Example weekly_average_rounds_the_float :
  PyFloat.round2 (PrimFloat.div (PyFloat.of_Q (1 # 8)) (PyFloat.of_Z 5))
  = PyFloat.of_Q (3 # 100).
Proof. vm_compute. reflexivity. Qed.

Lemma weekly_average_rounded_witness :
  match get_weekly_stats sum_left None None (token_of oid_admin) stats_db with
  | (_, Ok stats) =>
      forall st, st ∈ stats ->
        ws_average_hours_per_employee st
        = PyFloat.round2
            (PrimFloat.div (ws_total_hours st)
               (PyFloat.of_Z (ws_employees_reported st)))
  | (_, Err _) => False
  end.
Proof.
  destruct (get_weekly_stats _ _ _ _ _) as [db' [stats | e]] eqn:E.
  - destruct (weekly_average_rounded _ _ _ _ _ _ _ E) as [(matches & _ & H) _].
    intros st Hst. now apply H.
  - assert (H : (get_weekly_stats sum_left None None (token_of oid_admin)
                   stats_db).2 = Err e) by now rewrite E.
    vm_compute in H. discriminate.
Defined.
